(** * Sonar rock/mine prediction service: request handlers of [app.py]

    The Flask handlers [predict], [get_stats], [get_sample] and
    [health_check] are embedded as functions over decoded JSON values.
    The fragment of the Python runtime and of NumPy that the handlers
    call ([len], [in], subscripting, [float], [round], [str.lower],
    [np.asarray(..., dtype=float)], [reshape(1, -1)]) is modelled in the
    modules [Py] and [Np]; the pickled classifier is an opaque record of
    its two methods.

    Numbers: a Python [float] is a [pyfloat], either one of the three
    special values or [Fin q] with [q] its exact rational value.
    Conversions and the product [x * 100] round to binary64
    ([float_of_Q]); decimal literals of the source are read as the
    decimals they spell.  Strings are UTF-8 byte strings; [float] of a
    string covers ASCII digits and white space. *)

From Stdlib Require Import List String Ascii ZArith QArith Qabs Lia Lqa Bool.
From Stdlib Require Import DecimalString.
Import ListNotations.

Set Warnings "-register-all".
Local Open Scope string_scope.
Local Open Scope Z_scope.

(** ** Python runtime fragment *)

Module Py.

Inductive pyfloat : Type :=
| Fin (q : Q)
| PosInf
| NegInf
| NaN.

(** Values produced by [request.get_json()] and passed to [jsonify]. *)
Inductive pyval : Type :=
| PyNone
| PyBool (b : bool)
| PyInt (z : Z)
| PyFloat (f : pyfloat)
| PyStr (s : string)
| PyList (l : list pyval)
| PyDict (kvs : list (string * pyval)).

(** Exception classes; [Derived] is a class declared by a library below
    one of the others, [Other] any further direct subclass of
    [Exception]. *)
Inductive exn_class : Type :=
| ValueError
| TypeError
| OverflowError
| IndexError
| KeyError
| Derived (name : string) (base : exn_class)
| Other (name : string).

Record exn : Type := mk_exn { exn_cls : exn_class; exn_str : string }.

(** [isinstance(e, ValueError)], the test of [except ValueError]. *)
Fixpoint is_ValueError (c : exn_class) : bool :=
  match c with
  | ValueError => true
  | Derived _ base => is_ValueError base
  | _ => false
  end.

Inductive outcome (A : Type) : Type :=
| Return (a : A)
| Raise (e : exn).
Arguments Return {A} a.
Arguments Raise {A} e.

Definition raise {A} (c : exn_class) (msg : string) : outcome A :=
  Raise (mk_exn c msg).

Definition obind {A B} (c : outcome A) (k : A -> outcome B) : outcome B :=
  match c with
  | Return a => k a
  | Raise e => Raise e
  end.

(** *** Truth value, [in], subscripting, [len] *)

Definition float_is_zero (f : pyfloat) : bool :=
  match f with
  | Fin q => Qeq_bool q 0
  | _ => false
  end.

Definition truthy (v : pyval) : bool :=
  match v with
  | PyNone => false
  | PyBool b => b
  | PyInt z => negb (z =? 0)
  | PyFloat f => negb (float_is_zero f)
  | PyStr s => negb (String.eqb s "")
  | PyList l => match l with [] => false | _ => true end
  | PyDict kvs => match kvs with [] => false | _ => true end
  end.

Fixpoint lookup (key : string) (kvs : list (string * pyval)) : option pyval :=
  match kvs with
  | [] => None
  | (k, v) :: rest => if String.eqb k key then Some v else lookup key rest
  end.

Definition has_key (key : string) (kvs : list (string * pyval)) : bool :=
  match lookup key kvs with Some _ => true | None => false end.

Definition eq_str (v : pyval) (s : string) : bool :=
  match v with
  | PyStr t => String.eqb t s
  | _ => false
  end.

Fixpoint substringb (needle hay : string) : bool :=
  String.prefix needle hay ||
  match hay with
  | EmptyString => false
  | String _ rest => substringb needle rest
  end.

Definition type_name (v : pyval) : string :=
  match v with
  | PyNone => "NoneType"
  | PyBool _ => "bool"
  | PyInt _ => "int"
  | PyFloat _ => "float"
  | PyStr _ => "str"
  | PyList _ => "list"
  | PyDict _ => "dict"
  end.

(** [key in container] for a string [key]. *)
Definition contains (key : string) (container : pyval) : outcome bool :=
  match container with
  | PyDict kvs => Return (has_key key kvs)
  | PyList l => Return (existsb (fun v => eq_str v key) l)
  | PyStr s => Return (substringb key s)
  | _ => raise TypeError
           ("argument of type '" ++ type_name container ++ "' is not iterable")
  end.

(** [container[key]] for a string [key]. *)
Definition getitem (container : pyval) (key : string) : outcome pyval :=
  match container with
  | PyDict kvs =>
      match lookup key kvs with
      | Some v => Return v
      | None => raise KeyError ("'" ++ key ++ "'")
      end
  | PyList _ => raise TypeError "list indices must be integers or slices, not str"
  | PyStr _ => raise TypeError "string indices must be integers, not 'str'"
  | _ => raise TypeError ("'" ++ type_name container ++ "' object is not subscriptable")
  end.

Definition len (v : pyval) : outcome nat :=
  match v with
  | PyList l => Return (List.length l)
  | PyStr s => Return (String.length s)
  | PyDict kvs => Return (List.length kvs)
  | _ => raise TypeError ("object of type '" ++ type_name v ++ "' has no len()")
  end.

(** [seq[i]] on a list-like object; the text of the IndexError varies
    with the type of the object and is abbreviated here. *)
Definition index {A} (l : list A) (i : nat) : outcome A :=
  match nth_error l i with
  | Some a => Return a
  | None => raise IndexError "index out of range"
  end.

(** *** Decimal text of integers, as [str] and f-strings print them *)

Definition str_nat (n : nat) : string := NilZero.string_of_uint (Nat.to_uint n).
Definition str_int (z : Z) : string := NilZero.string_of_int (Z.to_int z).

(** *** [str.lower] *)

Definition lower_ascii (c : ascii) : ascii :=
  let n := nat_of_ascii c in
  if (65 <=? n)%nat && (n <=? 90)%nat then ascii_of_nat (n + 32) else c.

(** The three UTF-8 bytes of U+212A KELVIN SIGN. *)
Definition is_kelvin (a b c : ascii) : bool :=
  (nat_of_ascii a =? 226)%nat && (nat_of_ascii b =? 132)%nat
  && (nat_of_ascii c =? 170)%nat.

(** ASCII capitals go to their small letters and U+212A KELVIN SIGN goes
    to [k]: it is the one non-ASCII character whose lowercase form is
    ASCII.  The bytes of any other non-ASCII character are kept as they
    are; its lowercase form holds a non-ASCII character as well, and the
    handlers only compare the result with ASCII words. *)
Fixpoint lower (s : string) : string :=
  match s with
  | EmptyString => EmptyString
  | String a s1 =>
      match s1 with
      | String b (String c s3) =>
          if is_kelvin a b c then String "k" (lower s3)
          else String (lower_ascii a) (lower s1)
      | _ => String (lower_ascii a) (lower s1)
      end
  end.

(** *** [float(s)] for a string

    CPython strips ASCII white space, then accepts an optional sign
    followed by [inf], [infinity], [nan] (any case) or a decimal number
    [digits [. digits] [(e|E) [sign] digits]] with at least one mantissa
    digit; single underscores may separate digits. *)

Definition is_space (c : ascii) : bool :=
  let n := nat_of_ascii c in
  (n =? 32)%nat || ((9 <=? n)%nat && (n <=? 13)%nat).

Definition digit_of (c : ascii) : option Z :=
  let n := nat_of_ascii c in
  if (48 <=? n)%nat && (n <=? 57)%nat then Some (Z.of_nat (n - 48)) else None.

Fixpoint lstrip (l : list ascii) : list ascii :=
  match l with
  | c :: rest => if is_space c then lstrip rest else l
  | [] => []
  end.

Definition strip (l : list ascii) : list ascii := List.rev (lstrip (List.rev (lstrip l))).

(** Digits after the first one of a digit part: value so far, number of
    digits read, unread input. *)
Fixpoint digits_tail (acc : Z) (cnt : nat) (l : list ascii) : Z * nat * list ascii :=
  match l with
  | c :: rest =>
      match digit_of c with
      | Some d => digits_tail (acc * 10 + d) (S cnt) rest
      | None =>
          if Ascii.eqb c "_" then
            match rest with
            | c2 :: rest2 =>
                match digit_of c2 with
                | Some d => digits_tail (acc * 10 + d) (S cnt) rest2
                | None => (acc, cnt, l)
                end
            | [] => (acc, cnt, l)
            end
          else (acc, cnt, l)
      end
  | [] => (acc, cnt, l)
  end.

Definition digitpart (acc : Z) (l : list ascii) : option (Z * nat * list ascii) :=
  match l with
  | c :: rest =>
      match digit_of c with
      | Some d => Some (digits_tail (acc * 10 + d) 1 rest)
      | None => None
      end
  | [] => None
  end.

Definition parse_sign (l : list ascii) : bool * list ascii :=
  match l with
  | c :: rest =>
      if Ascii.eqb c "-" then (true, rest)
      else if Ascii.eqb c "+" then (false, rest)
      else (false, l)
  | [] => (false, l)
  end.

(** Mantissa as an integer, number of fraction digits, unread input. *)
Definition parse_number (l : list ascii) : option (Z * nat * list ascii) :=
  match digitpart 0 l with
  | Some (m, _, rest) =>
      match rest with
      | c :: rest' =>
          if Ascii.eqb c "." then
            match digitpart m rest' with
            | Some r => Some r
            | None => Some (m, 0%nat, rest')
            end
          else Some (m, 0%nat, rest)
      | [] => Some (m, 0%nat, rest)
      end
  | None =>
      match l with
      | c :: rest' => if Ascii.eqb c "." then digitpart 0 rest' else None
      | [] => None
      end
  end.

Definition parse_exponent (l : list ascii) : option (Z * list ascii) :=
  match l with
  | [] => Some (0, [])
  | c :: rest =>
      if Ascii.eqb c "e" || Ascii.eqb c "E" then
        let (neg, rest') := parse_sign rest in
        match digitpart 0 rest' with
        | Some (e, _, rest'') => Some (if neg then - e else e, rest'')
        | None => None
        end
      else Some (0, l)
  end.

(** Nearest integer, ties to the even one. *)
Definition round_half_even (x : Q) : Z :=
  let d := Zpos (Qden x) in
  let f := Qnum x / d in
  let r := Qnum x mod d in
  match 2 * r ?= d with
  | Lt => f
  | Gt => f + 1
  | Eq => if Z.even f then f else f + 1
  end.

(** The largest magnitude that still rounds to a finite double is just
    below [2^1024 - 2^970]. *)
Definition overflow_threshold : Z := 2 ^ 1024 - 2 ^ 970.

(** [2 ^ k] for an integer [k] of either sign. *)
Definition pow2 (k : Z) : Q :=
  if 0 <=? k then inject_Z (2 ^ k) else 1 # Z.to_pos (2 ^ (- k)).

(** The exponent [e] with [2 ^ e <= a < 2 ^ (e + 1)], for a positive [a]. *)
Definition floor_log2 (a : Q) : Z :=
  let e := Z.log2 (Qnum a) - Z.log2 (Zpos (Qden a)) in
  if Qle_bool (pow2 e) a then e else e - 1.

(** The binary64 value of a real: the nearest double, ties to the even
    significand.  Doubles around a magnitude [a] are spaced
    [2 ^ (e - 52)] apart, where [e] is the exponent of [a], and
    [2 ^ -1074] apart in the subnormal range; a result of [2 ^ 1024] or
    more is an infinity.  The sign of a zero is not kept. *)
Definition float_of_Q (q : Q) : pyfloat :=
  if Qeq_bool q 0 then Fin 0
  else
    let neg := negb (Qle_bool 0 q) in
    let a := if neg then Qopp q else q in
    let ulp := pow2 (Z.max (floor_log2 a) (-1022) - 52) in
    let r := (inject_Z (round_half_even (a / ulp)) * ulp)%Q in
    if Qle_bool (pow2 1024) r then (if neg then NegInf else PosInf)
    else Fin (if neg then Qopp r else r).

Definition float_of_string (s : string) : option pyfloat :=
  let l := strip (list_ascii_of_string s) in
  let (neg, body) := parse_sign l in
  let word := lower (string_of_list_ascii body) in
  if String.eqb word "inf" || String.eqb word "infinity"
  then Some (if neg then NegInf else PosInf)
  else if String.eqb word "nan" then Some NaN
  else
    match parse_number body with
    | Some (m, k, rest) =>
        match parse_exponent rest with
        | Some (e, []) =>
            let q := (inject_Z m * Qpower (10 # 1) (e - Z.of_nat k))%Q in
            Some (float_of_Q (if neg then Qopp q else q))
        | _ => None
        end
    | None => None
    end.

(** *** [float(x)], arithmetic and [round(x, 2)] *)

(** [float(obj)] on a decoded JSON scalar. *)
Definition float_of_object (v : pyval) : outcome pyfloat :=
  match v with
  | PyBool b => Return (Fin (if b then 1 else 0))
  | PyInt z =>
      if Z.abs z <? overflow_threshold then Return (float_of_Q (inject_Z z))
      else raise OverflowError "int too large to convert to float"
  | PyFloat f => Return f
  | PyStr s =>
      match float_of_string s with
      | Some f => Return f
      | None => raise ValueError ("could not convert string to float: '" ++ s ++ "'")
      end
  | _ => raise TypeError
           ("float() argument must be a string or a real number, not '"
              ++ type_name v ++ "'")
  end.

(** [x * 100] for a float [x]: the binary64 value of the product. *)
Definition mul100 (x : pyfloat) : pyfloat :=
  match x with
  | Fin q => float_of_Q (q * 100)
  | other => other
  end.

(** [round(x, 2)]: the exact value of [x] rounded to two decimals, ties
    to even; Python returns the double nearest to that decimal, which
    [jsonify] writes as the decimal itself, and the decimal is what the
    response holds.  A non-finite float is returned unchanged. *)
Definition round2 (x : pyfloat) : pyfloat :=
  match x with
  | Fin q => Fin (inject_Z (round_half_even (q * 100)) / 100)
  | other => other
  end.

End Py.

(** ** NumPy fragment *)

Module Np.
Import Py.

Record ndarray : Type := mk_ndarray { shape : list nat; data : list pyfloat }.

(** Shape discovery: a list contributes a dimension, everything else
    (strings included) is a scalar; the elements of a list must all have
    the same shape.  NumPy's cap on the number of dimensions is not
    modelled. *)
Fixpoint discover_shape (v : pyval) : option (list nat) :=
  match v with
  | PyList l =>
      match l with
      | [] => Some [0%nat]
      | x :: rest =>
          match discover_shape x with
          | Some s =>
              if forallb
                   (fun y =>
                      match discover_shape y with
                      | Some s' => if list_eq_dec Nat.eq_dec s s' then true else false
                      | None => false
                      end) rest
              then Some (List.length l :: s)
              else None
          | None => None
          end
      end
  | _ => Some []
  end.

(** Element conversion of the [float64] dtype: [None] becomes NaN, any
    other scalar goes through [float]. *)
Definition setitem (v : pyval) : outcome pyfloat :=
  match v with
  | PyNone => Return NaN
  | _ => float_of_object v
  end.

(** Elements are converted in row-major order. *)
Fixpoint fill (v : pyval) : outcome (list pyfloat) :=
  match v with
  | PyList l =>
      (fix go (l : list pyval) : outcome (list pyfloat) :=
         match l with
         | [] => Return []
         | x :: rest =>
             obind (fill x) (fun xs =>
             obind (go rest) (fun ys => Return (xs ++ ys)%list))
         end) l
  | _ => obind (setitem v) (fun x => Return [x])
  end.

(** [np.asarray(obj, dtype=float)]. *)
Definition asarray_float (obj : pyval) : outcome ndarray :=
  match discover_shape obj with
  | None => raise ValueError "setting an array element with a sequence."
  | Some s => obind (fill obj) (fun d => Return (mk_ndarray s d))
  end.

(** [a.reshape(1, -1)]. *)
Definition reshape_1_m1 (a : ndarray) : ndarray :=
  mk_ndarray [1%nat; List.length (data a)] (data a).

End Np.

(** ** The service *)

Import Py Np.

(** *** The pickled classifier

    [sonar_model.pkl] is not part of the sources; the object it holds is
    used through two methods only.  Either may raise, and their results
    are indexed like sequences. *)

Inductive class_label : Type :=
| LStr (s : string)
| LInt (z : Z).

Definition label_str (c : class_label) : string :=
  match c with
  | LStr s => s
  | LInt z => str_int z
  end.

Definition label_eq (c : class_label) (s : string) : bool :=
  match c with
  | LStr t => String.eqb t s
  | LInt _ => false
  end.

Record Classifier : Type := mk_classifier {
  clf_predict : ndarray -> outcome (list class_label);
  clf_predict_proba : ndarray -> outcome (list (list pyfloat))
}.

(** Startup: [model] is the unpickled object, or [None] when any step of
    loading raised.  The pickle may hold [None] itself; any other object
    is used through the two methods (on an object that lacks them the
    call raises AttributeError). *)
Definition load_model (unpickled : outcome (option Classifier)) : option Classifier :=
  match unpickled with
  | Return obj => obj
  | Raise _ => None
  end.

(** *** Handler computations

    A handler step may raise and may call the classifier; the calls are
    recorded in order. *)

Inductive call : Type :=
| CallPredict (x : ndarray)
| CallPredictProba (x : ndarray).

Definition handler (A : Type) : Type := (list call * outcome A)%type.

Definition ret {A} (a : A) : handler A := ([], Return a).

Definition lift {A} (c : outcome A) : handler A := ([], c).

Definition bind {A B} (c : handler A) (k : A -> handler B) : handler B :=
  match c with
  | (log, Return a) => let (log', r) := k a in ((log ++ log')%list, r)
  | (log, Raise e) => (log, Raise e)
  end.

Notation "x <- c ;; k" := (bind c (fun x => k))
  (at level 61, c at next level, right associativity).

Definition call_predict (m : Classifier) (x : ndarray) : handler (list class_label) :=
  ([CallPredict x], clf_predict m x).

Definition call_predict_proba (m : Classifier) (x : ndarray)
  : handler (list (list pyfloat)) :=
  ([CallPredictProba x], clf_predict_proba m x).

Inductive body : Type :=
| Json (v : pyval)
| Template (name : string).

Definition response : Type := (body * Z)%type.

Definition jsonify (v : pyval) : body := Json v.

Definition MODEL_STATS : pyval :=
  PyDict [ ("training_accuracy", PyFloat (Fin 83.42));
           ("test_accuracy", PyFloat (Fin 76.19));
           ("total_samples", PyInt 208);
           ("training_samples", PyInt 187);
           ("test_samples", PyInt 21);
           ("features", PyInt 60);
           ("rock_samples", PyInt 97);
           ("mine_samples", PyInt 111) ].

Definition home : response := (Template "index.html", 200).

(** [request.get_json()] on the body of a POST sent as
    [application/json]: the decoded value, or BadRequest (an
    HTTPException) when the body is empty and decoding fails. *)
Inductive http_body : Type :=
| EmptyBody
| JsonText (decoded : pyval).

Definition request_get_json (b : http_body) : outcome pyval :=
  match b with
  | JsonText decoded => Return decoded
  | EmptyBody =>
      raise (Other "BadRequest")
        "400 Bad Request: The browser (or proxy) sent a request that this server could not understand."
  end.

(** *** [predict] *)

Definition rock_or_mine (c : class_label) : string :=
  if label_eq c "R" then "Rock" else "Mine".

(** The [try] block of [predict]; [get_json] is the outcome of
    [request.get_json()]. *)
Definition predict_try (model : option Classifier) (get_json : outcome pyval)
  : handler response :=
  data <- lift get_json ;;
  no_features <-
    (if negb (truthy data) then ret true
     else present <- lift (contains "features" data) ;; ret (negb present)) ;;
  if no_features : bool then
    ret (jsonify (PyDict [ ("error", PyStr "No features provided");
                           ("message", PyStr "Please provide 60 sonar readings") ]),
         400)
  else
    features <- lift (getitem data "features") ;;
    n <- lift (len features) ;;
    if negb (n =? 60)%nat then
      ret (jsonify (PyDict [ ("error", PyStr "Invalid input length");
                             ("message",
                              PyStr ("Expected 60 features, got " ++ str_nat n)) ]),
           400)
    else
      input_array <- lift (asarray_float features) ;;
      let input_reshaped := reshape_1_m1 input_array in
      match model with
      | None =>
          ret (jsonify
                 (PyDict [ ("error", PyStr "Model not loaded");
                           ("message",
                            PyStr "Please ensure sonar_model.pkl is in the correct directory") ]),
               500)
      | Some m =>
          prediction <- call_predict m input_reshaped ;;
          prediction_proba <- call_predict_proba m input_reshaped ;;
          row1 <- lift (index prediction_proba 0) ;;
          p1 <- lift (index row1 1) ;;
          let rock_probability := mul100 p1 in
          row0 <- lift (index prediction_proba 0) ;;
          p0 <- lift (index row0 0) ;;
          let mine_probability := mul100 p0 in
          (* prediction[0] is read three times below, with one result *)
          c <- lift (index prediction 0) ;;
          let result :=
            PyDict [ ("prediction", PyStr (label_str c));
                     ("prediction_label", PyStr (rock_or_mine c));
                     ("confidence",
                      PyDict [ ("rock", PyFloat (round2 rock_probability));
                               ("mine", PyFloat (round2 mine_probability)) ]);
                     ("message", PyStr ("The object is a " ++ rock_or_mine c)) ] in
          ret (jsonify result, 200)
      end.

(** The [except] clauses, tried in order. *)
Definition predict_except (e : exn) : response :=
  if is_ValueError (exn_cls e) then
    (jsonify (PyDict [ ("error", PyStr "Invalid input values");
                       ("message", PyStr "All features must be numeric values") ]),
     400)
  else
    (jsonify (PyDict [ ("error", PyStr "Prediction failed");
                       ("message", PyStr (exn_str e)) ]),
     500).

(** [predict]: the classifier calls made, and the response. *)
Definition predict (model : option Classifier) (get_json : outcome pyval)
  : list call * response :=
  match predict_try model get_json with
  | (log, Return r) => (log, r)
  | (log, Raise e) => (log, predict_except e)
  end.

Definition get_stats : response := (jsonify MODEL_STATS, 200).

(** *** [get_sample] *)

Definition rock_sample : list Q :=
  [0.0409; 0.0421; 0.0573; 0.013; 0.0183; 0.1019; 0.1054; 0.107;
   0.2302; 0.2259; 0.2373; 0.3323; 0.3827; 0.484; 0.6812; 0.7555;
   0.9522; 0.9826; 0.8871; 0.8268; 0.7561; 0.8217; 0.6967; 0.6444;
   0.6948; 0.8014; 0.6053; 0.6084; 0.8877; 0.8557; 0.5563; 0.2897;
   0.3638; 0.4786; 0.2908; 0.0899; 0.2043; 0.1707; 0.0407; 0.1286;
   0.1581; 0.2191; 0.1701; 0.0971; 0.2217; 0.2732; 0.1874; 0.1062;
   0.0665; 0.0405; 0.0113; 0.0028; 0.0036; 0.0105; 0.012; 0.0087;
   0.0061; 0.0061; 0.003; 0.0078]%Q.

Definition mine_sample : list Q :=
  [0.0200; 0.0371; 0.0428; 0.0207; 0.0954; 0.0986; 0.1539; 0.1601;
   0.3109; 0.2111; 0.1609; 0.1582; 0.2238; 0.0645; 0.0660; 0.2273;
   0.3100; 0.2999; 0.5078; 0.4797; 0.5783; 0.5071; 0.4328; 0.5550;
   0.6711; 0.6415; 0.7104; 0.8080; 0.6791; 0.3857; 0.1307; 0.2604;
   0.5121; 0.7547; 0.8537; 0.8507; 0.6692; 0.6097; 0.4943; 0.2744;
   0.0510; 0.2834; 0.2825; 0.4256; 0.2641; 0.1386; 0.1051; 0.1343;
   0.0383; 0.0324; 0.0232; 0.0027; 0.0065; 0.0159; 0.0072; 0.0167;
   0.0180; 0.0084; 0.0090; 0.0032]%Q.

Definition dquote : string := String (ascii_of_nat 34) EmptyString.

Definition float_list (l : list Q) : pyval :=
  PyList (map (fun q => PyFloat (Fin q)) l).

Definition get_sample (sample_type : string) : response :=
  if String.eqb (lower sample_type) "rock" then
    (jsonify (PyDict [ ("type", PyStr "rock");
                       ("features", float_list rock_sample);
                       ("label", PyStr "R") ]),
     200)
  else if String.eqb (lower sample_type) "mine" then
    (jsonify (PyDict [ ("type", PyStr "mine");
                       ("features", float_list mine_sample);
                       ("label", PyStr "M") ]),
     200)
  else
    (jsonify (PyDict [ ("error", PyStr "Invalid sample type");
                       ("message",
                        PyStr ("Use " ++ dquote ++ "rock" ++ dquote ++ " or "
                                 ++ dquote ++ "mine" ++ dquote)) ]),
     400).

(** *** [health_check] *)

Definition is_not_None {A} (o : option A) : bool :=
  match o with Some _ => true | None => false end.

Definition health_check (model : option Classifier) : response :=
  (jsonify (PyDict [ ("status", PyStr "healthy");
                     ("model_loaded", PyBool (is_not_None model));
                     ("version", PyStr "1.0.0") ]),
   200).

(** *** The process: one global [model], never assigned by a handler *)

Inductive request : Type :=
| GET_home
| POST_predict (get_json : outcome pyval)
| GET_stats
| GET_sample (sample_type : string)
| GET_health.

Definition serve (model : option Classifier) (r : request)
  : option Classifier * response :=
  match r with
  | GET_home => (model, home)
  | POST_predict get_json => (model, snd (predict model get_json))
  | GET_stats => (model, get_stats)
  | GET_sample sample_type => (model, get_sample sample_type)
  | GET_health => (model, health_check model)
  end.

Fixpoint serve_all (model : option Classifier) (rs : list request)
  : option Classifier * list response :=
  match rs with
  | [] => (model, [])
  | r :: rest =>
      let (model', resp) := serve model r in
      let (model'', resps) := serve_all model' rest in
      (model'', resp :: resps)
  end.

(** ** Vocabulary of the specification *)

Definition error_response (kind message : string) (status : Z) : response :=
  (Json (PyDict [("error", PyStr kind); ("message", PyStr message)]), status).

Definition MissingInput : response :=
  error_response "No features provided" "Please provide 60 sonar readings" 400.

Definition InvalidLength (received : nat) : response :=
  error_response "Invalid input length"
    ("Expected 60 features, got " ++ str_nat received) 400.

Definition NonNumericInput : response :=
  error_response "Invalid input values" "All features must be numeric values" 400.

Definition ModelUnavailable : response :=
  error_response "Model not loaded"
    "Please ensure sonar_model.pkl is in the correct directory" 500.

Definition PredictionFailed (message : string) : response :=
  error_response "Prediction failed" message 500.

Definition InvalidSampleType : response :=
  error_response "Invalid sample type"
    ("Use " ++ dquote ++ "rock" ++ dquote ++ " or " ++ dquote ++ "mine" ++ dquote) 400.

(** A field of a JSON object response. *)
Definition field (name : string) (r : response) : option pyval :=
  match fst r with
  | Json (PyDict kvs) => lookup name kvs
  | _ => None
  end.

Definition status (r : response) : Z := snd r.

(** The request body [{"features": v, ...}] as decoded. *)
Definition with_features (v : pyval) : pyval := PyDict [("features", v)].

(** A decoded body without the [features] key: a JSON object that does
    not bind it (the empty object included), or JSON null. *)
Definition lacks_features (data : pyval) : Prop :=
  match data with
  | PyDict kvs => lookup "features" kvs = None
  | PyNone => True
  | _ => False
  end.

(** Values on which [len] is undefined. *)
Definition unsized (v : pyval) : Prop :=
  match v with
  | PyNone | PyBool _ | PyInt _ | PyFloat _ => True
  | _ => False
  end.

Definition is_scalar (v : pyval) : Prop :=
  match v with
  | PyList _ => False
  | _ => True
  end.

(** Element-wise conversion, left to right. *)
Fixpoint convert_all (l : list pyval) : outcome (list pyfloat) :=
  match l with
  | [] => Return []
  | x :: rest =>
      obind (setitem x) (fun y =>
      obind (convert_all rest) (fun ys => Return (y :: ys)))
  end.

(** A JSON scalar whose conversion can only fail with a ValueError:
    null, a boolean, a float, a string, or an integer within the range
    of a double. *)
Definition json_scalar (v : pyval) : Prop :=
  match v with
  | PyList _ | PyDict _ => False
  | PyInt z => Z.abs z < overflow_threshold
  | _ => True
  end.

(** A string that [float] does not accept. *)
Definition unparsable (v : pyval) : Prop :=
  match v with
  | PyStr s => float_of_string s = None
  | _ => False
  end.

(** A finite JSON number within the range of a double. *)
Definition finite_number (v : pyval) : Prop :=
  match v with
  | PyInt z => Z.abs z < overflow_threshold
  | PyFloat (Fin _) => True
  | _ => False
  end.

(** An element that does not convert to a finite real. *)
Definition not_finite_real (v : pyval) : Prop :=
  forall q, setitem v <> Return (Fin q).

(** What is expected of a request body while no model is loaded: the
    three validation failures, then ModelUnavailable for a valid vector. *)
Inductive expected_without_model : pyval -> response -> Prop :=
| exp_missing data :
    lacks_features data ->
    expected_without_model data MissingInput
| exp_length kvs l :
    lookup "features" kvs = Some (PyList l) ->
    List.length l <> 60%nat ->
    expected_without_model (PyDict kvs) (InvalidLength (List.length l))
| exp_non_numeric kvs l :
    lookup "features" kvs = Some (PyList l) ->
    List.length l = 60%nat ->
    Forall json_scalar l -> Exists unparsable l ->
    expected_without_model (PyDict kvs) NonNumericInput
| exp_valid kvs l :
    lookup "features" kvs = Some (PyList l) ->
    List.length l = 60%nat ->
    Forall finite_number l ->
    expected_without_model (PyDict kvs) ModelUnavailable.


Definition two_decimals (x : Q) : Q := (inject_Z (round_half_even (x * 100)) / 100)%Q.

(** A classifier that answers 'M' with probabilities 0.12345 and 0.87655. *)
Definition demo_classifier : Classifier :=
  mk_classifier (fun _ => Return [LStr "M"])
                (fun _ => Return [[Fin 0.12345; Fin 0.87655]]).

Definition rock_array : ndarray := mk_ndarray [60%nat] (map Fin rock_sample).

(** Case-insensitive comparison, character by character: two characters
    match when they are equal or are the same ASCII letter in the two
    cases. *)
Definition is_upper (c : ascii) : bool :=
  let n := nat_of_ascii c in (65 <=? n)%nat && (n <=? 90)%nat.

Definition same_letter (a b : ascii) : bool :=
  Ascii.eqb a b
  || (is_upper a && (nat_of_ascii b =? nat_of_ascii a + 32)%nat)
  || (is_upper b && (nat_of_ascii a =? nat_of_ascii b + 32)%nat).

Definition is_k (b : ascii) : bool := Ascii.eqb b "k" || Ascii.eqb b "K".

(** Comparison of a string with an ASCII word: besides letters that
    differ in case only, U+212A KELVIN SIGN in the string matches the
    letter k of the word. *)
Fixpoint ci_eqb (s t : string) : bool :=
  match s, t with
  | EmptyString, EmptyString => true
  | String a s1, String x t' =>
      match s1 with
      | String b (String c s3) =>
          if is_kelvin a b c then is_k x && ci_eqb s3 t'
          else same_letter a x && ci_eqb s1 t'
      | _ => same_letter a x && ci_eqb s1 t'
      end
  | _, _ => false
  end.

(** The small letters of an ASCII word. *)
Fixpoint ascii_lower (t : string) : string :=
  match t with
  | EmptyString => EmptyString
  | String x t' => String (lower_ascii x) (ascii_lower t')
  end.

(** U+212A KELVIN SIGN in UTF-8. *)
Definition kelvin_sign : string :=
  String (ascii_of_nat 226) (String (ascii_of_nat 132) (String (ascii_of_nat 170) "")).

Definition sample_response (kind : string) (vec : list Q) (label : string) : response :=
  (Json (PyDict [ ("type", PyStr kind);
                  ("features", float_list vec);
                  ("label", PyStr label) ]),
   200).

Definition unit_interval (q : Q) : Prop := (0 <= q)%Q /\ (q <= 1)%Q.

Definition all_ascii : list ascii := map ascii_of_nat (seq 0 256).

(** The [try] block of the startup ran to its end. *)
Definition load_completed (unpickled : outcome (option Classifier)) : bool :=
  match unpickled with
  | Return _ => true
  | Raise _ => false
  end.

(** The body and status of a successful prediction for class [c] and the
    probability row starting [p0; p1]. *)
Definition prediction_response (c : class_label) (p0 p1 : pyfloat) : response :=
  (Json (PyDict [ ("prediction", PyStr (label_str c));
                  ("prediction_label", PyStr (rock_or_mine c));
                  ("confidence",
                   PyDict [ ("rock", PyFloat (round2 (mul100 p1)));
                            ("mine", PyFloat (round2 (mul100 p0))) ]);
                  ("message", PyStr ("The object is a " ++ rock_or_mine c)) ]),
   200).

(** The statements of [predict] that follow the model check, run on
    their own under the same [except] clauses; [predict_object] shows
    that [predict] runs exactly this once validation has passed. *)
Definition inference (m : Classifier) (input_reshaped : ndarray) : list call * response :=
  match
    (prediction <- call_predict m input_reshaped ;;
     prediction_proba <- call_predict_proba m input_reshaped ;;
     row1 <- lift (index prediction_proba 0) ;;
     p1 <- lift (index row1 1) ;;
     row0 <- lift (index prediction_proba 0) ;;
     p0 <- lift (index row0 0) ;;
     c <- lift (index prediction 0) ;;
     ret (prediction_response c p0 p1))
  with
  | (log, Return r) => (log, r)
  | (log, Raise e) => (log, predict_except e)
  end.

(** The forms a response of [predict] can take. *)
Inductive predict_response : response -> Prop :=
| form_prediction c p0 p1 : predict_response (prediction_response c p0 p1)
| form_missing : predict_response MissingInput
| form_length n : predict_response (InvalidLength n)
| form_non_numeric : predict_response NonNumericInput
| form_unavailable : predict_response ModelUnavailable
| form_failed msg : predict_response (PredictionFailed msg).

(** A run of [predict] that reaches the end of the [try] block: the body
    is a JSON object whose [features] value has length 60 and converts to
    an array, a model is loaded, and both of its methods answer with a
    first class and a first row of at least two probabilities. *)
Inductive succeeds : option Classifier -> outcome pyval -> list call -> response -> Prop :=
| succeeds_intro m kvs features a c cs p0 p1 ps rows :
    lookup "features" kvs = Some features ->
    len features = Return 60%nat ->
    asarray_float features = Return a ->
    clf_predict m (reshape_1_m1 a) = Return (c :: cs) ->
    clf_predict_proba m (reshape_1_m1 a) = Return ((p0 :: p1 :: ps) :: rows) ->
    succeeds (Some m) (Return (PyDict kvs))
      [CallPredict (reshape_1_m1 a); CallPredictProba (reshape_1_m1 a)]
      (prediction_response c p0 p1).

(** Classifier answers that the indexing of [predict] cannot read: no
    predicted class, no probability row, or a first row with fewer than
    two entries. *)
Definition malformed_output (prediction : list class_label)
    (prediction_proba : list (list pyfloat)) : Prop :=
  prediction = [] \/
  match prediction_proba with
  | [] => True
  | row :: _ => (List.length row < 2)%nat
  end.

(** The request passed validation and [x] is the array handed to the
    classifier. *)
Definition validated (get_json : outcome pyval) (x : ndarray) : Prop :=
  exists kvs features a,
    get_json = Return (PyDict kvs)
    /\ lookup "features" kvs = Some features
    /\ len features = Return 60%nat
    /\ asarray_float features = Return a
    /\ x = reshape_1_m1 a.

(** Classifiers for concrete runs: both methods raise [e]; only
    [predict_proba] raises [e]; a single class with one probability. *)
Definition raising_classifier (e : exn) : Classifier :=
  mk_classifier (fun _ => Raise e) (fun _ => Raise e).

Definition no_proba_classifier (e : exn) : Classifier :=
  mk_classifier (fun _ => Return [LStr "R"]) (fun _ => Raise e).

Definition one_class_classifier : Classifier :=
  mk_classifier (fun _ => Return [LStr "R"]) (fun _ => Return [[Fin 1]]).

Definition rock_request : outcome pyval :=
  Return (with_features (float_list rock_sample)).

(** ** Properties of [predict]: the validation steps *)

Local Opaque overflow_threshold.

Ltac run_predict := unfold predict, predict_try, bind, lift, ret; cbn.

(** A body on which the presence test of [predict] succeeds. *)
Lemma predict_absent model data :
  truthy data = false \/ contains "features" data = Return false ->
  predict model (Return data) = ([], MissingInput).
Proof.
  intros [H | H]; run_predict; rewrite H; cbn; [reflexivity |].
  destruct (truthy data); reflexivity.
Qed.

Lemma lacks_features_absent data :
  lacks_features data ->
  truthy data = false \/ contains "features" data = Return false.
Proof.
  destruct data; cbn; try tauto.
  intros H. right. unfold has_key. rewrite H. reflexivity.
Qed.

(** Once the key is bound in a JSON object, [predict] goes on to [len]. *)
Lemma predict_present model kvs features :
  lookup "features" kvs = Some features ->
  predict model (Return (PyDict kvs)) =
  match len features with
  | Raise e => ([], predict_except e)
  | Return n =>
      if negb (n =? 60)%nat then ([], InvalidLength n)
      else
        match asarray_float features with
        | Raise e => ([], predict_except e)
        | Return a =>
            match model with
            | None => ([], ModelUnavailable)
            | Some m => predict (Some m) (Return (with_features features))
            end
        end
  end.
Proof.
  intros H.
  assert (Ht : truthy (PyDict kvs) = true).
  { destruct kvs; [discriminate | reflexivity]. }
  unfold predict at 1. unfold predict_try, bind, lift, ret.
  rewrite Ht. cbn [negb contains getitem]. unfold has_key. rewrite H. cbn [negb].
  destruct (len features) as [n | e] eqn:Hl; [| reflexivity].
  destruct (negb (n =? 60)%nat) eqn:Hn; [reflexivity |].
  destruct (asarray_float features) as [a | e] eqn:Ha; [| reflexivity].
  destruct model as [m |]; [| reflexivity].
  unfold predict, predict_try, bind, lift, ret, with_features.
  cbn [truthy negb contains getitem has_key lookup].
  replace (String.eqb "features" "features") with true by reflexivity.
  cbn [negb]. rewrite Hl, Hn, Ha. reflexivity.
Qed.

Lemma predict_lacks model data :
  lacks_features data -> predict model (Return data) = ([], MissingInput).
Proof. intros H. apply predict_absent, lacks_features_absent, H. Qed.

Lemma predict_wrong_length model kvs l :
  lookup "features" kvs = Some (PyList l) ->
  List.length l <> 60%nat ->
  predict model (Return (PyDict kvs)) = ([], InvalidLength (List.length l)).
Proof.
  intros Hk Hn. rewrite (predict_present _ _ _ Hk). cbn [len].
  destruct (Nat.eqb_spec (List.length l) 60); [contradiction | reflexivity].
Qed.

(** C5 (as amended): a request whose decoded body is a JSON object
    without the [features] key (the empty object included) or is null
    fails with MissingInput, status 400, whatever the model state and
    before any other check or any classifier call. *)
Theorem predict_missing_input model data :
  lacks_features data ->
  predict model (Return data) = ([], MissingInput) /\ status MissingInput = 400.
Proof.
  intros H. split; [| reflexivity].
  apply predict_lacks, H.
Qed.

Lemma predict_missing_input_witness :
  predict None (Return (PyDict [])) = ([], MissingInput) /\ status MissingInput = 400.
Proof.
  apply (predict_missing_input None (PyDict [])). reflexivity.
Defined.

(** C5 (as stated) fails for an empty body: [get_json] raises, and the
    answer is PredictionFailed, status 500, not MissingInput. *)
Lemma empty_body_not_missing_input :
  exists msg,
    predict None (request_get_json EmptyBody) = ([], PredictionFailed msg)
    /\ status (PredictionFailed msg) = 500
    /\ PredictionFailed msg <> MissingInput.
Proof. eexists. split; [reflexivity |]. split; [reflexivity | discriminate]. Qed.

(** C4: a [features] list whose length is not 60 fails with
    InvalidLength, status 400; the message names the expected count 60
    and the received count, and the classifier is not called. *)
Theorem predict_invalid_length model kvs l :
  lookup "features" kvs = Some (PyList l) ->
  List.length l <> 60%nat ->
  predict model (Return (PyDict kvs)) = ([], InvalidLength (List.length l))
  /\ status (InvalidLength (List.length l)) = 400
  /\ field "message" (InvalidLength (List.length l)) =
       Some (PyStr ("Expected 60 features, got " ++ str_nat (List.length l))).
Proof.
  intros Hk Hn. split; [| split; reflexivity].
  apply predict_wrong_length; assumption.
Qed.

Lemma predict_invalid_length_witness :
  predict None (Return (with_features (PyList [PyFloat (Fin 0.1); PyFloat (Fin 0.2);
                                              PyFloat (Fin 0.3)])))
  = ([], InvalidLength 3)
  /\ status (InvalidLength 3) = 400
  /\ field "message" (InvalidLength 3) = Some (PyStr "Expected 60 features, got 3").
Proof.
  apply (predict_invalid_length None
           [("features", PyList [PyFloat (Fin 0.1); PyFloat (Fin 0.2); PyFloat (Fin 0.3)])]
           [PyFloat (Fin 0.1); PyFloat (Fin 0.2); PyFloat (Fin 0.3)]).
  - reflexivity.
  - cbn. lia.
Defined.

Example invalid_length_0 :
  predict None (Return (with_features (PyList []))) =
  ([], error_response "Invalid input length" "Expected 60 features, got 0" 400).
Proof. reflexivity. Qed.

Example invalid_length_61 :
  predict None (Return (with_features (PyList (repeat (PyInt 0) 61)))) =
  ([], error_response "Invalid input length" "Expected 60 features, got 61" 400).
Proof. reflexivity. Qed.

(** C9: when [features] is bound to a number, null or a boolean, taking
    its length raises a TypeError; the response is none of the three
    validation errors but the generic failure, status 500. *)
Theorem predict_unsized_features model kvs v :
  lookup "features" kvs = Some v ->
  unsized v ->
  let r := PredictionFailed ("object of type '" ++ type_name v ++ "' has no len()") in
  predict model (Return (PyDict kvs)) = ([], r)
  /\ status r = 500
  /\ r <> MissingInput /\ (forall n, r <> InvalidLength n) /\ r <> NonNumericInput.
Proof.
  intros Hk Hv r. subst r.
  split; [| split; [reflexivity | repeat split; try intros n; discriminate]].
  rewrite (predict_present _ _ _ Hk).
  destruct v; cbn in Hv; try contradiction; reflexivity.
Qed.

Lemma predict_unsized_features_witness :
  let r := PredictionFailed "object of type 'int' has no len()" in
  predict None (Return (with_features (PyInt 5))) = ([], r)
  /\ status r = 500
  /\ r <> MissingInput /\ (forall n, r <> InvalidLength n) /\ r <> NonNumericInput.
Proof.
  apply (predict_unsized_features None [("features", PyInt 5)] (PyInt 5)).
  - reflexivity.
  - exact I.
Defined.

(** ** Conversion of a flat list by [np.asarray] *)

Lemma json_scalar_is_scalar v : json_scalar v -> is_scalar v.
Proof. destruct v; cbn; tauto. Qed.

Lemma finite_number_json_scalar v : finite_number v -> json_scalar v.
Proof. destruct v as [| | | [] | | |]; cbn; tauto. Qed.

Lemma discover_shape_scalar v : is_scalar v -> discover_shape v = Some [].
Proof. destruct v; cbn; intros H; try reflexivity; contradiction. Qed.

Lemma discover_shape_flat l :
  Forall is_scalar l -> discover_shape (PyList l) = Some [List.length l].
Proof.
  intros H. destruct H as [| x rest Hx Hrest]; [reflexivity |].
  cbn [discover_shape]. rewrite (discover_shape_scalar x Hx).
  replace (forallb _ rest) with true; [reflexivity |].
  symmetry. apply forallb_forall. intros y Hy.
  rewrite Forall_forall in Hrest.
  rewrite (discover_shape_scalar y (Hrest y Hy)). reflexivity.
Qed.

Lemma fill_scalar v : is_scalar v -> fill v = obind (setitem v) (fun x => Return [x]).
Proof. destruct v; cbn; intros H; try reflexivity; contradiction. Qed.

Lemma fill_flat l : Forall is_scalar l -> fill (PyList l) = convert_all l.
Proof.
  cbn [fill]. induction 1 as [| x rest Hx Hrest IH]; [reflexivity |].
  rewrite (fill_scalar x Hx), IH. cbn [convert_all].
  destruct (setitem x); cbn; [| reflexivity].
  destruct (convert_all rest); reflexivity.
Qed.

Lemma asarray_flat l :
  Forall is_scalar l ->
  asarray_float (PyList l) =
  obind (convert_all l) (fun d => Return (mk_ndarray [List.length l] d)).
Proof.
  intros H. unfold asarray_float.
  rewrite (discover_shape_flat l H), (fill_flat l H). reflexivity.
Qed.

Lemma setitem_json_scalar v :
  json_scalar v ->
  (exists f, setitem v = Return f) \/
  (unparsable v /\ exists e, setitem v = Raise e /\ exn_cls e = ValueError).
Proof.
  destruct v; cbn; intros H; try contradiction; try (left; eexists; reflexivity).
  - left. apply Z.ltb_lt in H. rewrite H. eexists; reflexivity.
  - destruct (float_of_string s) as [f |].
    + left. eexists; reflexivity.
    + right. split; [reflexivity |]. eexists; split; reflexivity.
Qed.

Lemma setitem_unparsable v :
  unparsable v -> exists e, setitem v = Raise e /\ exn_cls e = ValueError.
Proof.
  destruct v; cbn; intros H; try contradiction.
  rewrite H. eexists; split; reflexivity.
Qed.

Lemma convert_all_rejects l :
  Forall json_scalar l -> Exists unparsable l ->
  exists e, convert_all l = Raise e /\ exn_cls e = ValueError.
Proof.
  induction 1 as [| x rest Hx Hrest IH]; intros Hex; [inversion Hex |].
  cbn [convert_all].
  destruct (setitem_json_scalar x Hx) as [[f Hf] | [_ [e [He Hc]]]].
  - rewrite Hf. cbn [obind].
    inversion Hex as [? ? Hu | ? ? Hu]; subst.
    + destruct (setitem_unparsable x Hu) as [e [He _]]. congruence.
    + destruct (IH Hu) as [e [He Hc]]. rewrite He. exists e. split; [reflexivity | exact Hc].
  - rewrite He. exists e. split; [reflexivity | exact Hc].
Qed.

Lemma convert_all_numbers l :
  Forall finite_number l -> exists d, convert_all l = Return d.
Proof.
  induction 1 as [| x rest Hx Hrest [d IH]]; [eexists; reflexivity |].
  cbn [convert_all]. rewrite IH.
  destruct x as [| | z | [] | | |]; cbn in Hx; try contradiction.
  - cbn. apply Z.ltb_lt in Hx. rewrite Hx. eexists; reflexivity.
  - eexists; reflexivity.
Qed.

(** A list of 60 JSON scalars with a string that [float] rejects. *)
Lemma predict_unparsable model kvs l :
  lookup "features" kvs = Some (PyList l) ->
  List.length l = 60%nat ->
  Forall json_scalar l -> Exists unparsable l ->
  predict model (Return (PyDict kvs)) = ([], NonNumericInput).
Proof.
  intros Hk Hn Hs Hu.
  rewrite (predict_present _ _ _ Hk). cbn [len]. rewrite Hn. cbn [Nat.eqb negb].
  rewrite asarray_flat by (eapply Forall_impl; [apply json_scalar_is_scalar | exact Hs]).
  destruct (convert_all_rejects l Hs Hu) as [e [He Hc]].
  rewrite He. cbn [obind]. unfold predict_except. rewrite Hc. reflexivity.
Qed.

(** A list of 60 finite numbers, with no model loaded. *)
Lemma predict_numbers_no_model kvs l :
  lookup "features" kvs = Some (PyList l) ->
  List.length l = 60%nat ->
  Forall finite_number l ->
  predict None (Return (PyDict kvs)) = ([], ModelUnavailable).
Proof.
  intros Hk Hn Hs.
  rewrite (predict_present _ _ _ Hk). cbn [len]. rewrite Hn. cbn [Nat.eqb negb].
  rewrite asarray_flat
    by (eapply Forall_impl; [| exact Hs];
        intros v Hv; apply json_scalar_is_scalar, finite_number_json_scalar, Hv).
  destruct (convert_all_numbers l Hs) as [d Hd]. rewrite Hd. reflexivity.
Qed.

(** C3 (as amended): with no model loaded, a body without [features], a
    list of the wrong length and a list of 60 JSON scalars holding a
    string that [float] rejects still get their validation error (status
    400, the same for every model state), a list of 60 finite numbers
    gets ModelUnavailable (status 500), and in no case is the classifier
    called. *)
Theorem predict_model_absent data r :
  expected_without_model data r ->
  predict None (Return data) = ([], r)
  /\ (r <> ModelUnavailable ->
      status r = 400 /\ forall model, predict model (Return data) = ([], r))
  /\ (r = ModelUnavailable -> status r = 500).
Proof.
  intros H. destruct H as [data H | kvs l Hk Hn | kvs l Hk Hn Hs Hu | kvs l Hk Hn Hs].
  - split; [apply predict_lacks, H |].
    split; [| discriminate].
    intros _. split; [reflexivity |]. intros model. apply predict_lacks, H.
  - split; [apply predict_wrong_length; assumption |].
    split; [| discriminate].
    intros _. split; [reflexivity |]. intros model.
    apply predict_wrong_length; assumption.
  - split; [apply predict_unparsable with (l := l); assumption |].
    split; [| discriminate].
    intros _. split; [reflexivity |]. intros model.
    apply predict_unparsable with (l := l); assumption.
  - split; [apply predict_numbers_no_model with (l := l); assumption |].
    split; [intros Hr; contradiction Hr; reflexivity | reflexivity].
Qed.

Lemma predict_model_absent_witness :
  predict None (Return (with_features (PyList (repeat (PyStr "x") 60))))
  = ([], NonNumericInput)
  /\ (NonNumericInput <> ModelUnavailable ->
      status NonNumericInput = 400 /\
      forall model,
        predict model (Return (with_features (PyList (repeat (PyStr "x") 60))))
        = ([], NonNumericInput))
  /\ (NonNumericInput = ModelUnavailable -> status NonNumericInput = 500).
Proof.
  apply (predict_model_absent (with_features (PyList (repeat (PyStr "x") 60)))
           NonNumericInput).
  apply (exp_non_numeric [("features", PyList (repeat (PyStr "x") 60))]
           (repeat (PyStr "x") 60)).
  - reflexivity.
  - reflexivity.
  - apply Forall_forall. intros v Hv. apply repeat_spec in Hv. subst v. exact I.
  - apply Exists_cons_hd. reflexivity.
Defined.

(** C3 (as stated) fails for non-numeric elements other than such
    strings: with no model loaded, a vector ending in null is answered
    ModelUnavailable and a vector ending in a JSON object is answered
    PredictionFailed, both status 500, not the validation error. *)
Lemma null_or_object_element_without_model :
  let nums := repeat (PyFloat (Fin 0.5)) 59 in
  List.length (nums ++ [PyNone])%list = 60%nat
  /\ Exists not_finite_real (nums ++ [PyNone])%list
  /\ predict None (Return (with_features (PyList (nums ++ [PyNone])%list)))
     = ([], ModelUnavailable)
  /\ List.length (nums ++ [PyDict []])%list = 60%nat
  /\ Exists not_finite_real (nums ++ [PyDict []])%list
  /\ predict None (Return (with_features (PyList (nums ++ [PyDict []])%list)))
     = ([], PredictionFailed
              "float() argument must be a string or a real number, not 'dict'")
  /\ status ModelUnavailable = 500
  /\ ModelUnavailable <> NonNumericInput
  /\ PredictionFailed "float() argument must be a string or a real number, not 'dict'"
     <> NonNumericInput.
Proof.
  cbv zeta. split; [reflexivity |]. split.
  { apply Exists_exists. exists PyNone. split.
    - apply in_or_app. right. left. reflexivity.
    - intros q. discriminate. }
  split; [vm_compute; reflexivity |]. split; [reflexivity |]. split.
  { apply Exists_exists. exists (PyDict []). split.
    - apply in_or_app. right. left. reflexivity.
    - intros q. discriminate. }
  split; [vm_compute; reflexivity |].
  split; [reflexivity |]. split; discriminate.
Qed.

(** C2 (as amended): a [features] list of 60 JSON scalars in which some
    string is not accepted by [float] fails with NonNumericInput, status
    400, for every model state and without any classifier call. *)
Theorem predict_non_numeric model kvs l :
  lookup "features" kvs = Some (PyList l) ->
  List.length l = 60%nat ->
  Forall json_scalar l -> Exists unparsable l ->
  predict model (Return (PyDict kvs)) = ([], NonNumericInput)
  /\ status NonNumericInput = 400.
Proof.
  intros Hk Hn Hs Hu. split; [| reflexivity].
  apply predict_unparsable with (l := l); assumption.
Qed.

Lemma predict_non_numeric_witness :
  predict None (Return (with_features (PyList (repeat (PyStr "a") 60))))
  = ([], NonNumericInput)
  /\ status NonNumericInput = 400.
Proof.
  apply (predict_non_numeric None [("features", PyList (repeat (PyStr "a") 60))]
           (repeat (PyStr "a") 60)).
  - reflexivity.
  - reflexivity.
  - apply Forall_forall. intros v Hv. apply repeat_spec in Hv. subst v. exact I.
  - apply Exists_cons_hd. reflexivity.
Defined.

(** C2 (as stated) fails: a vector whose last element is the string
    [nan] has an element that is no finite real, yet with no model loaded
    the answer is ModelUnavailable (status 500), not NonNumericInput. *)
Lemma nan_element_not_rejected :
  let l := (repeat (PyFloat (Fin 0.5)) 59 ++ [PyStr "nan"])%list in
  List.length l = 60%nat
  /\ Exists not_finite_real l
  /\ predict None (Return (with_features (PyList l))) = ([], ModelUnavailable)
  /\ status ModelUnavailable = 500
  /\ ModelUnavailable <> NonNumericInput.
Proof.
  cbv zeta. split; [reflexivity |]. split.
  - apply Exists_exists. exists (PyStr "nan"). split.
    + apply in_or_app. right. left. reflexivity.
    + intros q. vm_compute. discriminate.
  - split; [vm_compute; reflexivity |]. split; [reflexivity | discriminate].
Qed.

(** The JSON literals [NaN] and [Infinity] pass the same way, and so does
    a vector that a classifier accepts. *)
Example infinity_literal_not_rejected :
  predict None
    (Return (with_features (PyList (PyFloat PosInf :: repeat (PyFloat NaN) 59))))
  = ([], ModelUnavailable).
Proof. vm_compute. reflexivity. Qed.

(** ** Properties of [predict]: the successful path *)

Lemma predict_success m kvs l a c cs row rows p0 p1 :
  lookup "features" kvs = Some (PyList l) ->
  List.length l = 60%nat ->
  asarray_float (PyList l) = Return a ->
  clf_predict m (reshape_1_m1 a) = Return (c :: cs) ->
  clf_predict_proba m (reshape_1_m1 a) = Return (row :: rows) ->
  nth_error row 0 = Some p0 ->
  nth_error row 1 = Some p1 ->
  predict (Some m) (Return (PyDict kvs)) =
  ([CallPredict (reshape_1_m1 a); CallPredictProba (reshape_1_m1 a)],
   (Json (PyDict [ ("prediction", PyStr (label_str c));
                   ("prediction_label", PyStr (rock_or_mine c));
                   ("confidence",
                    PyDict [ ("rock", PyFloat (round2 (mul100 p1)));
                             ("mine", PyFloat (round2 (mul100 p0))) ]);
                   ("message", PyStr ("The object is a " ++ rock_or_mine c)) ]),
    200)).
Proof.
  intros Hk Hn Ha Hp Hpp H0 H1.
  assert (Ht : truthy (PyDict kvs) = true).
  { destruct kvs; [discriminate | reflexivity]. }
  unfold predict, predict_try, bind, lift, ret.
  rewrite Ht. cbn [negb contains getitem]. unfold has_key. rewrite Hk.
  cbn [negb len]. rewrite Hn. cbn [Nat.eqb negb]. rewrite Ha.
  unfold call_predict, call_predict_proba. rewrite Hp, Hpp.
  unfold index. simpl (nth_error (row :: rows) 0).
  cbv iota beta. rewrite H1. cbv iota beta. rewrite H0. cbv iota beta.
  cbn [nth_error app]. reflexivity.
Qed.

Lemma rock_or_mine_R c : c = LStr "R" -> rock_or_mine c = "Rock".
Proof. intros ->. reflexivity. Qed.

Lemma rock_or_mine_other c : c <> LStr "R" -> rock_or_mine c = "Mine".
Proof.
  intros H. unfold rock_or_mine. destruct c as [s | z]; cbn; [| reflexivity].
  destruct (String.eqb_spec s "R") as [-> | _]; [contradiction H | ]; reflexivity.
Qed.

(** C10: on a successful prediction the label is "Rock" exactly when the
    predicted class is the string 'R' and "Mine" for any other class
    value; confidence.rock comes from index 1 and confidence.mine from
    index 0 of the first probability row; the message names the label. *)
Theorem predict_label_and_confidence m kvs l a c cs p0 p1 ps rows :
  lookup "features" kvs = Some (PyList l) ->
  List.length l = 60%nat ->
  asarray_float (PyList l) = Return a ->
  clf_predict m (reshape_1_m1 a) = Return (c :: cs) ->
  clf_predict_proba m (reshape_1_m1 a) = Return ((p0 :: p1 :: ps) :: rows) ->
  let r := snd (predict (Some m) (Return (PyDict kvs))) in
  status r = 200
  /\ (c = LStr "R" ->
      field "prediction_label" r = Some (PyStr "Rock") /\
      field "message" r = Some (PyStr "The object is a Rock"))
  /\ (c <> LStr "R" ->
      field "prediction_label" r = Some (PyStr "Mine") /\
      field "message" r = Some (PyStr "The object is a Mine"))
  /\ field "confidence" r =
       Some (PyDict [ ("rock", PyFloat (round2 (mul100 p1)));
                      ("mine", PyFloat (round2 (mul100 p0))) ]).
Proof.
  intros Hk Hn Ha Hp Hpp r. subst r.
  rewrite (predict_success m kvs l a c cs (p0 :: p1 :: ps) rows p0 p1 Hk Hn Ha Hp Hpp
             eq_refl eq_refl).
  cbn [snd]. split; [reflexivity |].
  split; [intros Hc; rewrite (rock_or_mine_R c Hc); split; reflexivity |].
  split; [intros Hc; rewrite (rock_or_mine_other c Hc); split; reflexivity |].
  reflexivity.
Qed.

Lemma predict_label_and_confidence_witness :
  let r := snd (predict (Some demo_classifier)
                  (Return (with_features (float_list rock_sample)))) in
  status r = 200
  /\ (LStr "M" = LStr "R" ->
      field "prediction_label" r = Some (PyStr "Rock") /\
      field "message" r = Some (PyStr "The object is a Rock"))
  /\ (LStr "M" <> LStr "R" ->
      field "prediction_label" r = Some (PyStr "Mine") /\
      field "message" r = Some (PyStr "The object is a Mine"))
  /\ field "confidence" r =
       Some (PyDict [ ("rock", PyFloat (round2 (mul100 (Fin 0.87655))));
                      ("mine", PyFloat (round2 (mul100 (Fin 0.12345)))) ]).
Proof.
  apply (predict_label_and_confidence demo_classifier
           [("features", float_list rock_sample)]
           (map (fun q => PyFloat (Fin q)) rock_sample) rock_array
           (LStr "M") [] (Fin 0.12345) (Fin 0.87655) [] []); reflexivity.
Defined.

(** *** Rounding to two decimals *)

Lemma round_half_even_near_Z x :
  2 * Z.abs (round_half_even x * Zpos (Qden x) - Qnum x) <= Zpos (Qden x).
Proof.
  unfold round_half_even.
  set (d := Zpos (Qden x)). set (n := Qnum x).
  assert (Hd : 0 < d) by (unfold d; lia).
  pose proof (Z.div_mod n d ltac:(lia)) as Hdm.
  pose proof (Z.mod_pos_bound n d Hd) as Hb.
  destruct (Z.compare_spec (2 * (n mod d)) d) as [He | Hl | Hg].
  - destruct (Z.even (n / d)); nia.
  - nia.
  - nia.
Qed.

Lemma round_half_even_near x :
  (Qabs (inject_Z (round_half_even x) - x) <= 1 # 2)%Q.
Proof.
  pose proof (round_half_even_near_Z x) as H.
  apply Qabs_Qle_condition.
  destruct x as [n d]. cbn [Qnum Qden] in H.
  set (z := round_half_even (n # d)) in *.
  unfold Qle, Qminus, Qplus, Qopp, inject_Z. cbn [Qnum Qden].
  split; nia.
Qed.

Lemma two_decimals_near x : (Qabs (two_decimals x - x) <= 1 # 200)%Q.
Proof.
  unfold two_decimals.
  pose proof (round_half_even_near (x * 100)) as H.
  apply Qabs_Qle_condition in H. apply Qabs_Qle_condition.
  set (z := inject_Z (round_half_even (x * 100))) in *.
  unfold Qdiv. change (/ 100)%Q with (1 # 100)%Q.
  split; lra.
Qed.


Lemma floor_log2_small a : (0 < a)%Q -> (a <= 100)%Q -> floor_log2 a <= 7.
Proof.
  intros Hpos Hle. unfold floor_log2.
  set (e := Z.log2 (Qnum a) - Z.log2 (Zpos (Qden a))).
  assert (He : e <= 7).
  { unfold e. destruct a as [n d]. cbn [Qnum Qden].
    unfold Qlt in Hpos. unfold Qle in Hle. cbn in Hpos, Hle.
    assert (Hn : n <= Zpos d * 2 ^ 7) by lia.
    pose proof (Z.log2_le_mono _ _ Hn) as Hl.
    rewrite Z.log2_mul_pow2 in Hl by lia. lia. }
  destruct (Qle_bool (pow2 e) a); lia.
Qed.

Lemma pow2_neg k : k < 0 -> pow2 k = 1 # Z.to_pos (2 ^ (- k)).
Proof. intros H. unfold pow2. destruct (Z.leb_spec 0 k); [lia | reflexivity]. Qed.

Lemma float_of_Q_percent a :
  (0 <= a)%Q -> (a <= 100)%Q ->
  exists x, float_of_Q a = Fin x
            /\ (Qabs (x - a) <= 1 # 2 ^ 46)%Q /\ (0 <= x)%Q /\ (x <= 100)%Q.
Proof.
  intros H0 H1. unfold float_of_Q.
  change (1 # 2 ^ 46)%Q with (1 # 70368744177664)%Q.
  destruct (Qeq_bool a 0) eqn:E0.
  - apply Qeq_bool_iff in E0. exists 0%Q. split; [reflexivity |].
    split; [apply Qabs_Qle_condition; split; lra | split; lra].
  - assert (Hpos : (0 < a)%Q).
    { apply Qeq_bool_neq in E0.
      destruct (Qlt_le_dec 0 a) as [Hl | Hl]; [exact Hl |].
      exfalso. apply E0. apply Qle_antisym; assumption. }
    assert (E1 : Qle_bool 0 a = true) by (apply Qle_bool_iff; exact H0).
    rewrite E1. cbn [negb].
    set (k := Z.max (floor_log2 a) (-1022) - 52).
    assert (Hk : k <= -45) by (pose proof (floor_log2_small a Hpos H1); lia).
    assert (Hk' : -1074 <= k) by lia.
    rewrite (pow2_neg k) by lia.
    set (P := 2 ^ (- k)).
    assert (HP : 2 ^ 45 <= P) by (apply Z.pow_le_mono_r; lia).
    assert (HP0 : 0 < P) by lia.
    set (u := 1 # Z.to_pos P).
    assert (Hu : (u * inject_Z P == 1)%Q).
    { unfold u, Qeq, Qmult, inject_Z. cbn [Qnum Qden].
      rewrite Pos.mul_1_r, Z2Pos.id by lia. lia. }
    assert (HPq : (inject_Z (2 ^ 45) <= inject_Z P)%Q) by (rewrite <- Zle_Qle; exact HP).
    assert (Hu0 : (0 < u)%Q) by (unfold u, Qlt; cbn; lia).
    set (t := (a / u)%Q).
    assert (Hinv : (/ u)%Q = inject_Z P).
    { unfold u, Qinv, inject_Z. cbn [Qnum Qden]. rewrite Z2Pos.id by lia. reflexivity. }
    assert (Ht : (t == a * inject_Z P)%Q).
    { unfold t, Qdiv. rewrite Hinv. reflexivity. }
    pose proof (round_half_even_near t) as R. apply Qabs_Qle_condition in R.
    set (m := round_half_even t) in *.
    assert (Htu : (t * u == a)%Q).
    { rewrite Ht, <- Qmult_assoc, (Qmult_comm (inject_Z P) u), Hu. ring. }
    assert (Hu45 : (u * inject_Z (2 ^ 45) <= 1)%Q).
    { rewrite <- Hu. apply Qmult_le_l; [exact Hu0 | exact HPq]. }
    change (inject_Z (2 ^ 45)) with (35184372088832)%Q in Hu45.
    assert (Hm0 : 0 <= m).
    { assert (H : (inject_Z (-1) < inject_Z m)%Q).
      { change (inject_Z (-1)) with (-1)%Q.
        assert (0 <= t)%Q by (rewrite Ht; apply Qmult_le_0_compat; [lra |]; change 0%Q with (inject_Z 0); rewrite <- Zle_Qle; lia).
        lra. }
      rewrite <- Zlt_Qlt in H. lia. }
    assert (Hm1 : m <= 100 * P).
    { assert (H : (inject_Z m < inject_Z (100 * P + 1))%Q).
      { rewrite inject_Z_plus, inject_Z_mult.
        change (inject_Z 100) with 100%Q. change (inject_Z 1) with 1%Q.
        assert (t <= 100 * inject_Z P)%Q.
        { rewrite Ht. apply Qmult_le_compat_r; [exact H1 |].
          change 0%Q with (inject_Z 0). rewrite <- Zle_Qle. lia. }
        lra. }
      rewrite <- Zlt_Qlt in H. lia. }
    rewrite Zle_Qle in Hm0, Hm1. rewrite inject_Z_mult in Hm1.
    change (inject_Z 0) with 0%Q in Hm0. change (inject_Z 100) with 100%Q in Hm1.
    set (mq := inject_Z m) in *.
    assert (A1 : ((mq - t) * u <= (1 # 2) * u)%Q) by (apply Qmult_le_compat_r; lra).
    assert (A2 : ((- (1 # 2)) * u <= (mq - t) * u)%Q) by (apply Qmult_le_compat_r; lra).
    assert (A3 : (0 * u <= mq * u)%Q) by (apply Qmult_le_compat_r; lra).
    assert (A4 : (mq * u <= 100 * inject_Z P * u)%Q) by (apply Qmult_le_compat_r; lra).
    assert (A5 : (100 * inject_Z P * u == 100)%Q).
    { rewrite <- Qmult_assoc, (Qmult_comm (inject_Z P) u), Hu. ring. }
    assert (Hr100 : (mq * u <= 100)%Q) by lra.
    assert (Hov : Qle_bool (pow2 1024) (mq * u) = false).
    { destruct (Qle_bool (pow2 1024) (mq * u)) eqn:E; [| reflexivity].
      apply Qle_bool_iff in E.
      assert (Hbig : (100 < pow2 1024)%Q) by (vm_compute; reflexivity).
      lra. }
    rewrite Hov. exists (mq * u)%Q. split; [reflexivity |].
    split; [| split; lra].
    apply Qabs_Qle_condition.
    split; lra.
Qed.

(** The binary64 product of a probability and 100. *)
Lemma mul100_near p :
  (0 <= p)%Q -> (p <= 1)%Q ->
  exists x, mul100 (Fin p) = Fin x
            /\ (Qabs (x - p * 100) <= 1 # 2 ^ 46)%Q /\ (0 <= x)%Q /\ (x <= 100)%Q.
Proof.
  intros H0 H1. unfold mul100. apply float_of_Q_percent; lra.
Qed.

(** A product that falls just below a tie: the exact product is above
    99.395, its binary64 value is below, and the response says 99.39. *)
Example binary64_product_below_tie :
  round2 (mul100 (Fin (8952705699249809 # 2 ^ 53))) = Fin 99.39
  /\ round2 (mul100 (Fin (1 - (8952705699249809 # 2 ^ 53)))) = Fin 0.60
  /\ (99.395 < (8952705699249809 # 2 ^ 53) * 100)%Q.
Proof. vm_compute. repeat split; reflexivity. Qed.

Lemma confidence_sum p0 p1 :
  (p0 + p1 == 1)%Q ->
  (Qabs (two_decimals (p1 * 100) + two_decimals (p0 * 100) - 100) <= 1 # 100)%Q.
Proof.
  intros Hs.
  pose proof (two_decimals_near (p1 * 100)) as H1.
  pose proof (two_decimals_near (p0 * 100)) as H0.
  apply Qabs_Qle_condition in H1. apply Qabs_Qle_condition in H0.
  apply Qabs_Qle_condition.
  split; lra.
Qed.




(** ** [get_sample] *)

Lemma all_ascii_complete a : In a all_ascii.
Proof.
  unfold all_ascii. apply in_map_iff. exists (nat_of_ascii a). split.
  - apply ascii_nat_embedding.
  - apply in_seq. pose proof (nat_ascii_bounded a). lia.
Qed.

Lemma lower_ascii_same_letter a b :
  Ascii.eqb (lower_ascii a) (lower_ascii b) = same_letter a b.
Proof.
  assert (H : forallb
                (fun x =>
                   forallb
                     (fun y =>
                        Bool.eqb (Ascii.eqb (lower_ascii x) (lower_ascii y))
                                 (same_letter x y))
                     all_ascii)
                all_ascii = true) by (vm_compute; reflexivity).
  rewrite forallb_forall in H. specialize (H a (all_ascii_complete a)).
  rewrite forallb_forall in H. specialize (H b (all_ascii_complete b)).
  apply Bool.eqb_prop, H.
Qed.

Lemma k_lower_ascii x : Ascii.eqb "k" (lower_ascii x) = is_k x.
Proof. destruct x as [[] [] [] [] [] [] [] []]; reflexivity. Qed.

Lemma lower_cons a s1 :
  lower (String a s1) =
  match s1 with
  | String b (String c s3) =>
      if is_kelvin a b c then String "k" (lower s3)
      else String (lower_ascii a) (lower s1)
  | _ => String (lower_ascii a) (lower s1)
  end.
Proof. destruct s1 as [| b [| c s3]]; reflexivity. Qed.

Lemma ci_eqb_cons a s1 x t :
  ci_eqb (String a s1) (String x t) =
  match s1 with
  | String b (String c s3) =>
      if is_kelvin a b c then is_k x && ci_eqb s3 t
      else same_letter a x && ci_eqb s1 t
  | _ => same_letter a x && ci_eqb s1 t
  end.
Proof. destruct s1 as [| b [| c s3]]; reflexivity. Qed.

Lemma lower_word_bounded n :
  forall s t, (String.length s <= n)%nat ->
              String.eqb (lower s) (ascii_lower t) = ci_eqb s t.
Proof.
  induction n as [| n IH]; intros s t Hlen.
  - destruct s; [| cbn in Hlen; lia]. destruct t; reflexivity.
  - destruct s as [| a s1]; [destruct t; reflexivity |].
    destruct t as [| x t'].
    + rewrite lower_cons.
      destruct s1 as [| b [| c s3]]; try destruct (is_kelvin a b c); reflexivity.
    + rewrite lower_cons, ci_eqb_cons. cbn [ascii_lower].
      cbn [String.length] in Hlen.
      destruct s1 as [| b [| c s3]] eqn:E.
      * cbn [String.eqb]. rewrite lower_ascii_same_letter, IH by (cbn; lia).
        reflexivity.
      * cbn [String.eqb]. rewrite lower_ascii_same_letter, IH by (cbn in *; lia).
        reflexivity.
      * destruct (is_kelvin a b c); cbn [String.eqb].
        -- rewrite k_lower_ascii, IH by (cbn in *; lia). reflexivity.
        -- rewrite lower_ascii_same_letter, IH by (cbn in *; lia). reflexivity.
Qed.

Lemma lower_word s t : String.eqb (lower s) (ascii_lower t) = ci_eqb s t.
Proof. apply (lower_word_bounded (String.length s)). apply le_n. Qed.

(** C6: a kind equal to "rock" or "mine" up to case (U+212A KELVIN SIGN
    counting as the letter k, as [str.lower] has it) gets status 200 with
    the matching fixed vector and its label 'R' or 'M'; any other kind
    gets InvalidSampleType, status 400; the answer depends on the kind
    alone, not on the state of the process. *)
Theorem get_sample_by_kind kind :
  get_sample kind =
    (if ci_eqb kind "rock" then sample_response "rock" rock_sample "R"
     else if ci_eqb kind "mine" then sample_response "mine" mine_sample "M"
     else InvalidSampleType)
  /\ status (sample_response "rock" rock_sample "R") = 200
  /\ status (sample_response "mine" mine_sample "M") = 200
  /\ status InvalidSampleType = 400
  /\ forall model, snd (serve model (GET_sample kind)) = get_sample kind.
Proof.
  split; [| repeat split].
  unfold get_sample.
  change (String.eqb (lower kind) "rock")
    with (String.eqb (lower kind) (ascii_lower "rock")).
  change (String.eqb (lower kind) "mine")
    with (String.eqb (lower kind) (ascii_lower "mine")).
  rewrite !lower_word.
  destruct (ci_eqb kind "rock"); [reflexivity |].
  destruct (ci_eqb kind "mine"); reflexivity.
Qed.

Example get_sample_ROCK : get_sample "ROCK" = sample_response "rock" rock_sample "R".
Proof. reflexivity. Qed.

Example get_sample_Mine : get_sample "Mine" = sample_response "mine" mine_sample "M".
Proof. reflexivity. Qed.

Example get_sample_other : get_sample "other" = InvalidSampleType.
Proof. reflexivity. Qed.

Example get_sample_kelvin :
  get_sample ("roc" ++ kelvin_sign) = sample_response "rock" rock_sample "R".
Proof. reflexivity. Qed.

Lemma unit_interval_forallb l :
  forallb (fun q => Qle_bool 0 q && Qle_bool q 1) l = true -> Forall unit_interval l.
Proof.
  intros H. apply Forall_forall. intros q Hq.
  rewrite forallb_forall in H. specialize (H q Hq).
  apply andb_true_iff in H. destruct H as [H0 H1].
  split; apply Qle_bool_iff; assumption.
Qed.

(** C7: the two vectors that [get_sample] returns have exactly 60
    elements, each within the closed interval from 0 to 1. *)
Theorem sample_vectors_normalised :
  field "features" (get_sample "rock") = Some (float_list rock_sample)
  /\ field "features" (get_sample "mine") = Some (float_list mine_sample)
  /\ List.length rock_sample = 60%nat
  /\ List.length mine_sample = 60%nat
  /\ Forall unit_interval rock_sample
  /\ Forall unit_interval mine_sample.
Proof.
  repeat split; try reflexivity;
    apply unit_interval_forallb; vm_compute; reflexivity.
Qed.

(** ** [health_check] *)

Lemma serve_all_model model rs : fst (serve_all model rs) = model.
Proof.
  revert model. induction rs as [| r rest IH]; intros model; [reflexivity |].
  cbn [serve_all].
  destruct (serve model r) as [model' resp] eqn:Hs.
  assert (Hm : model' = model) by (destruct r; cbn in Hs; congruence).
  subst model'. specialize (IH model).
  destruct (serve_all model rest) as [model'' resps]. exact IH.
Qed.

(** C8 (as amended): after startup and any sequence of requests,
    [health_check] answers status 200 with status "healthy", version
    "1.0.0" and model_loaded true exactly when the startup load ran to
    its end and produced an object other than None. *)
Theorem health_check_constant unpickled rs :
  let r := health_check (fst (serve_all (load_model unpickled) rs)) in
  status r = 200
  /\ field "status" r = Some (PyStr "healthy")
  /\ field "version" r = Some (PyStr "1.0.0")
  /\ (field "model_loaded" r = Some (PyBool true)
      <-> exists m, unpickled = Return (Some m))
  /\ (field "model_loaded" r = Some (PyBool false)
      <-> ~ exists m, unpickled = Return (Some m)).
Proof.
  cbv zeta. rewrite serve_all_model.
  split; [reflexivity |]. split; [reflexivity |]. split; [reflexivity |].
  destruct unpickled as [[m |] | e]; cbn.
  - split; split.
    + intros _. exists m. reflexivity.
    + reflexivity.
    + discriminate.
    + intros H. contradiction H. exists m. reflexivity.
  - split; split.
    + discriminate.
    + intros [m H]. discriminate H.
    + intros _ [m H]. discriminate H.
    + reflexivity.
  - split; split.
    + discriminate.
    + intros [m H]. discriminate H.
    + intros _ [m H]. discriminate H.
    + reflexivity.
Qed.

(** C8 (as stated) fails: a pickle that holds None is loaded without an
    exception, the startup reports success, and model_loaded is false. *)
Lemma pickled_none_not_loaded :
  load_completed (Return None) = true
  /\ load_model (Return None) = None
  /\ field "model_loaded" (health_check (load_model (Return None)))
     = Some (PyBool false).
Proof. repeat split. Qed.

(** ** Further properties of [predict] *)

Lemma predict_raise model e : predict model (Raise e) = ([], predict_except e).
Proof. reflexivity. Qed.

(** [predict] on a JSON object, stage by stage. *)
Lemma predict_object model kvs :
  predict model (Return (PyDict kvs)) =
  match lookup "features" kvs with
  | None => ([], MissingInput)
  | Some features =>
      match len features with
      | Raise e => ([], predict_except e)
      | Return n =>
          if negb (n =? 60)%nat then ([], InvalidLength n)
          else
            match asarray_float features with
            | Raise e => ([], predict_except e)
            | Return a =>
                match model with
                | None => ([], ModelUnavailable)
                | Some m => inference m (reshape_1_m1 a)
                end
            end
      end
  end.
Proof.
  destruct (lookup "features" kvs) as [features |] eqn:Hk.
  - assert (Ht : truthy (PyDict kvs) = true).
    { destruct kvs; [discriminate | reflexivity]. }
    unfold predict, inference, predict_try, bind, lift, ret.
    rewrite Ht. cbn [negb contains getitem]. unfold has_key. rewrite Hk. cbn [negb].
    destruct (len features) as [n | e]; [| reflexivity].
    destruct (negb (n =? 60)%nat); [reflexivity |].
    destruct (asarray_float features) as [a | e]; [| reflexivity].
    destruct model as [m |]; [| reflexivity].
    unfold prediction_response, jsonify.
    destruct (call_predict m (reshape_1_m1 a)) as [log1 [prediction | e]]; [| reflexivity].
    destruct (call_predict_proba m (reshape_1_m1 a)) as [log2 [proba | e]]; [| reflexivity].
    destruct (index proba 0) as [row |e]; [| reflexivity].
    destruct (index row 1) as [p1 | e]; [| reflexivity].
    destruct (index row 0) as [p0 | e]; [| reflexivity].
    destruct (index prediction 0) as [c | e]; reflexivity.
  - apply predict_lacks. exact Hk.
Qed.

Lemma inference_cases m x :
  inference m x =
  match clf_predict m x with
  | Raise e => ([CallPredict x], predict_except e)
  | Return prediction =>
      match clf_predict_proba m x with
      | Raise e => ([CallPredict x; CallPredictProba x], predict_except e)
      | Return proba =>
          ([CallPredict x; CallPredictProba x],
           match
             obind (index proba 0) (fun row =>
             obind (index row 1) (fun p1 =>
             obind (index row 0) (fun p0 =>
             obind (index prediction 0) (fun c =>
             Return (prediction_response c p0 p1)))))
           with
           | Return r => r
           | Raise e => predict_except e
           end)
      end
  end.
Proof.
  unfold inference, bind, lift, ret, call_predict, call_predict_proba.
  destruct (clf_predict m x) as [prediction | e]; [| reflexivity].
  destruct (clf_predict_proba m x) as [proba | e]; [| reflexivity].
  destruct (index proba 0) as [row | e]; [| reflexivity]. cbn [obind].
  destruct (index row 1) as [p1 | e]; [| reflexivity]. cbn [obind].
  destruct (index row 0) as [p0 | e]; [| reflexivity]. cbn [obind].
  destruct (index prediction 0) as [c | e]; reflexivity.
Qed.

Lemma except_form e : predict_response (predict_except e).
Proof.
  unfold predict_except. destruct (is_ValueError (exn_cls e)).
  - apply form_non_numeric.
  - apply (form_failed (exn_str e)).
Qed.

Lemma except_status e : status (predict_except e) = 400 \/ status (predict_except e) = 500.
Proof.
  unfold predict_except. destruct (is_ValueError (exn_cls e)); [left | right]; reflexivity.
Qed.

(** A body that is no JSON object never reaches the length check. *)
Lemma predict_not_object model data :
  (forall kvs, data <> PyDict kvs) ->
  predict model (Return data) = ([], MissingInput)
  \/ exists msg, predict model (Return data) = ([], PredictionFailed msg).
Proof.
  intros Hd. unfold predict, predict_try, bind, lift, ret.
  destruct data as [| b | z | f | s | l | kvs]; cbn [truthy].
  - left. reflexivity.
  - destruct b; [right; eexists | left]; reflexivity.
  - destruct (z =? 0); [left | right; eexists]; reflexivity.
  - destruct (float_is_zero f); [left | right; eexists]; reflexivity.
  - destruct (String.eqb s ""); [left; reflexivity |].
    cbn [negb contains]. destruct (substringb "features" s);
      [right; eexists | left]; reflexivity.
  - destruct l as [| v l']; [left; reflexivity |].
    cbn [negb contains].
    destruct (existsb (fun v0 => eq_str v0 "features") (v :: l'));
      [right; eexists | left]; reflexivity.
  - contradiction (Hd kvs). reflexivity.
Qed.

Lemma inference_form m x : predict_response (snd (inference m x)).
Proof.
  rewrite inference_cases.
  destruct (clf_predict m x) as [prediction | e]; [| apply except_form].
  destruct (clf_predict_proba m x) as [proba | e]; [| apply except_form].
  cbn [snd].
  destruct (index proba 0) as [row | e]; [| apply except_form]. cbn [obind].
  destruct (index row 1) as [p1 | e]; [| apply except_form]. cbn [obind].
  destruct (index row 0) as [p0 | e]; [| apply except_form]. cbn [obind].
  destruct (index prediction 0) as [c | e]; [| apply except_form]. cbn [obind].
  apply form_prediction.
Qed.

Lemma predict_form model get_json : predict_response (snd (predict model get_json)).
Proof.
  destruct get_json as [data | e]; [| apply except_form].
  destruct data as [| b | z | f | s | l | kvs].
  1-6: match goal with
       | |- predict_response (snd (predict _ (Return ?d))) =>
           destruct (predict_not_object model d ltac:(discriminate)) as [H | [msg H]];
           rewrite H; [apply form_missing | apply form_failed]
       end.
  rewrite predict_object.
  destruct (lookup "features" kvs) as [features |]; [| apply form_missing].
  destruct (len features) as [n | e]; [| apply except_form].
  destruct (negb (n =? 60)%nat); [apply form_length |].
  destruct (asarray_float features) as [a | e]; [| apply except_form].
  destruct model as [m |]; [apply inference_form | apply form_unavailable].
Qed.

(** X1: whatever the body and the model state, the response of
    [predict] is a prediction (status 200) or one of five error bodies:
    MissingInput, InvalidLength, NonNumericInput (each status 400),
    ModelUnavailable or PredictionFailed (each status 500). *)
Theorem predict_response_forms model get_json :
  predict_response (snd (predict model get_json))
  /\ (status (snd (predict model get_json)) = 200
      \/ status (snd (predict model get_json)) = 400
      \/ status (snd (predict model get_json)) = 500).
Proof.
  pose proof (predict_form model get_json) as H. split; [exact H |].
  destruct H; auto.
Qed.

Lemma predict_validated m get_json x :
  validated get_json x -> predict (Some m) get_json = inference m x.
Proof.
  intros [kvs [features [a [-> [Hk [Hl [Ha ->]]]]]]].
  rewrite predict_object, Hk, Hl. cbn [Nat.eqb negb]. rewrite Ha. reflexivity.
Qed.

Lemma predict_no_model get_json :
  fst (predict None get_json) = []
  /\ (status (snd (predict None get_json)) = 400
      \/ status (snd (predict None get_json)) = 500).
Proof.
  destruct get_json as [data | e]; [| split; [reflexivity | apply except_status]].
  destruct data as [| b | z | f | s | l | kvs].
  1-6: match goal with
       | |- context [predict None (Return ?d)] =>
           destruct (predict_not_object None d ltac:(discriminate)) as [H | [msg H]];
           rewrite H; split; [reflexivity | left; reflexivity
                             | reflexivity | right; reflexivity]
       end.
  rewrite predict_object.
  destruct (lookup "features" kvs) as [features |];
    [| split; [reflexivity | left; reflexivity]].
  destruct (len features) as [n | e]; [| split; [reflexivity | apply except_status]].
  destruct (negb (n =? 60)%nat); [split; [reflexivity | left; reflexivity] |].
  destruct (asarray_float features) as [a | e];
    [| split; [reflexivity | apply except_status]].
  split; [reflexivity | right; reflexivity].
Qed.

(** X2: while no model is loaded [predict] never calls a classifier and
    never answers 200: every response has status 400 or 500. *)
Theorem predict_without_model_never_infers get_json :
  fst (predict None get_json) = []
  /\ status (snd (predict None get_json)) <> 200
  /\ (status (snd (predict None get_json)) = 400
      \/ status (snd (predict None get_json)) = 500).
Proof.
  destruct (predict_no_model get_json) as [Hl Hs].
  split; [exact Hl |]. split; [| exact Hs].
  destruct Hs as [Hs | Hs]; rewrite Hs; discriminate.
Qed.

Lemma except_not_200 e : status (predict_except e) <> 200.
Proof. destruct (except_status e) as [H | H]; rewrite H; discriminate. Qed.

Lemma inference_200 m x :
  status (snd (inference m x)) = 200 ->
  exists c cs p0 p1 ps rows,
    clf_predict m x = Return (c :: cs)
    /\ clf_predict_proba m x = Return ((p0 :: p1 :: ps) :: rows)
    /\ inference m x = ([CallPredict x; CallPredictProba x], prediction_response c p0 p1).
Proof.
  rewrite inference_cases.
  destruct (clf_predict m x) as [prediction | e];
    [| intros H; contradiction (except_not_200 e H)].
  destruct (clf_predict_proba m x) as [proba | e];
    [| intros H; contradiction (except_not_200 e H)].
  destruct proba as [| [| p0 [| p1 ps]] rows];
    try (intros H; contradiction (except_not_200 _ H)).
  destruct prediction as [| c cs];
    [intros H; contradiction (except_not_200 _ H) |].
  intros _. exists c, cs, p0, p1, ps, rows. repeat split; reflexivity.
Qed.

Lemma predict_200_inversion model get_json :
  status (snd (predict model get_json)) = 200 ->
  succeeds model get_json (fst (predict model get_json)) (snd (predict model get_json)).
Proof.
  intros H.
  destruct get_json as [data | e]; [| contradiction (except_not_200 e H)].
  destruct data as [| b | z | f | s | l | kvs].
  1-6: match type of H with
       | context [predict _ (Return ?d)] =>
           destruct (predict_not_object model d ltac:(discriminate)) as [E | [msg E]];
           rewrite E in H; discriminate H
       end.
  rewrite predict_object in H |- *.
  destruct (lookup "features" kvs) as [features |] eqn:Hk; [| discriminate H].
  destruct (len features) as [n | e] eqn:Hl; [| contradiction (except_not_200 e H)].
  destruct (Nat.eqb_spec n 60) as [-> | Hn]; cbn [negb] in H |- *; [| discriminate H].
  destruct (asarray_float features) as [a | e] eqn:Ha;
    [| contradiction (except_not_200 e H)].
  destruct model as [m |]; [| discriminate H].
  destruct (inference_200 m (reshape_1_m1 a) H)
    as [c [cs [p0 [p1 [ps [rows [Hp [Hpp Hi]]]]]]]].
  rewrite Hi. cbn [fst snd].
  apply succeeds_intro with (features := features) (cs := cs) (ps := ps) (rows := rows);
    assumption.
Qed.

Lemma succeeds_predict model get_json log r :
  succeeds model get_json log r -> predict model get_json = (log, r).
Proof.
  intros H. destruct H as [m kvs features a c cs p0 p1 ps rows Hk Hl Ha Hp Hpp].
  rewrite predict_object, Hk, Hl. cbn [Nat.eqb negb]. rewrite Ha.
  rewrite inference_cases, Hp, Hpp. reflexivity.
Qed.

(** X3: [predict] answers 200 exactly when the run succeeds: the body is
    a JSON object whose [features] value has length 60 and converts to an
    array, a model is loaded, and [predict] then [predict_proba] return a
    first class and a first row of at least two probabilities; the calls
    made and the response are then the ones [succeeds] names. *)
Theorem predict_200_iff_succeeds model get_json :
  (status (snd (predict model get_json)) = 200
   <-> exists log r, succeeds model get_json log r)
  /\ (forall log r,
        succeeds model get_json log r -> predict model get_json = (log, r)).
Proof.
  split; [| intros log r H; apply succeeds_predict, H].
  split.
  - intros H. exists (fst (predict model get_json)), (snd (predict model get_json)).
    apply predict_200_inversion, H.
  - intros [log [r H]]. rewrite (succeeds_predict _ _ _ _ H).
    inversion H. reflexivity.
Qed.

Lemma rock_request_validated : validated rock_request (reshape_1_m1 rock_array).
Proof.
  exists [("features", float_list rock_sample)], (float_list rock_sample), rock_array.
  repeat split; reflexivity.
Defined.

(** X4: when the classifier's [predict] raises on a validated request,
    [predict_proba] is not called; a ValueError is answered as
    NonNumericInput (400), any other exception as PredictionFailed (500)
    with the text of the exception. *)
Theorem predict_classifier_raises m get_json x e :
  validated get_json x ->
  clf_predict m x = Raise e ->
  predict (Some m) get_json =
  ([CallPredict x],
   if is_ValueError (exn_cls e) then NonNumericInput else PredictionFailed (exn_str e)).
Proof.
  intros Hv Hp. rewrite (predict_validated m get_json x Hv), inference_cases, Hp.
  unfold predict_except. destruct (is_ValueError (exn_cls e)); reflexivity.
Qed.

Lemma predict_classifier_raises_witness :
  predict (Some (raising_classifier (mk_exn ValueError "Input X contains NaN.")))
    rock_request =
  ([CallPredict (reshape_1_m1 rock_array)],
   if is_ValueError (exn_cls (mk_exn ValueError "Input X contains NaN."))
   then NonNumericInput
   else PredictionFailed (exn_str (mk_exn ValueError "Input X contains NaN."))).
Proof.
  apply (predict_classifier_raises
           (raising_classifier (mk_exn ValueError "Input X contains NaN."))
           rock_request (reshape_1_m1 rock_array)
           (mk_exn ValueError "Input X contains NaN.")).
  - exact rock_request_validated.
  - reflexivity.
Defined.

(** X5: when [predict] of the classifier returns and [predict_proba]
    raises, both calls were made on the same array, in that order, and
    the exception is answered as NonNumericInput (400) if it is a
    ValueError and as PredictionFailed (500) with its text otherwise. *)
Theorem predict_proba_raises m get_json x prediction e :
  validated get_json x ->
  clf_predict m x = Return prediction ->
  clf_predict_proba m x = Raise e ->
  predict (Some m) get_json =
  ([CallPredict x; CallPredictProba x],
   if is_ValueError (exn_cls e) then NonNumericInput else PredictionFailed (exn_str e)).
Proof.
  intros Hv Hp Hpp.
  rewrite (predict_validated m get_json x Hv), inference_cases, Hp, Hpp.
  unfold predict_except. destruct (is_ValueError (exn_cls e)); reflexivity.
Qed.

Lemma predict_proba_raises_witness :
  predict
    (Some (no_proba_classifier
             (mk_exn (Other "AttributeError") "predict_proba is not available")))
    rock_request =
  ([CallPredict (reshape_1_m1 rock_array); CallPredictProba (reshape_1_m1 rock_array)],
   if is_ValueError
        (exn_cls (mk_exn (Other "AttributeError") "predict_proba is not available"))
   then NonNumericInput
   else PredictionFailed
          (exn_str (mk_exn (Other "AttributeError") "predict_proba is not available"))).
Proof.
  apply (predict_proba_raises
           (no_proba_classifier
              (mk_exn (Other "AttributeError") "predict_proba is not available"))
           rock_request (reshape_1_m1 rock_array) [LStr "R"]
           (mk_exn (Other "AttributeError") "predict_proba is not available")).
  - exact rock_request_validated.
  - reflexivity.
  - reflexivity.
Defined.

(** X6: when the classifier answers without a predicted class, without a
    probability row, or with a first row of fewer than two probabilities,
    the indexing raises after both calls and the response is
    PredictionFailed, status 500. *)
Theorem predict_malformed_output m get_json x prediction prediction_proba :
  validated get_json x ->
  clf_predict m x = Return prediction ->
  clf_predict_proba m x = Return prediction_proba ->
  malformed_output prediction prediction_proba ->
  exists msg,
    predict (Some m) get_json =
    ([CallPredict x; CallPredictProba x], PredictionFailed msg)
    /\ status (PredictionFailed msg) = 500.
Proof.
  intros Hv Hp Hpp Hm.
  rewrite (predict_validated m get_json x Hv), inference_cases, Hp, Hpp.
  destruct prediction_proba as [| [| p0 [| p1 ps]] rows];
    try (eexists; split; reflexivity).
  destruct Hm as [-> | Hm]; [eexists; split; reflexivity |].
  cbn in Hm. lia.
Qed.

Lemma predict_malformed_output_witness :
  exists msg,
    predict (Some one_class_classifier) rock_request =
    ([CallPredict (reshape_1_m1 rock_array); CallPredictProba (reshape_1_m1 rock_array)],
     PredictionFailed msg)
    /\ status (PredictionFailed msg) = 500.
Proof.
  apply (predict_malformed_output one_class_classifier rock_request
           (reshape_1_m1 rock_array) [LStr "R"] [[Fin 1]]).
  - exact rock_request_validated.
  - reflexivity.
  - reflexivity.
  - right. cbn. lia.
Defined.

(** X7: the classifier is only called on the array of a validated
    request, [predict] first and [predict_proba] after it on the same
    array, each at most once. *)
Theorem predict_call_log model get_json :
  fst (predict model get_json) = []
  \/ exists x,
       validated get_json x
       /\ (fst (predict model get_json) = [CallPredict x]
           \/ fst (predict model get_json) = [CallPredict x; CallPredictProba x]).
Proof.
  destruct model as [m |]; [| left; apply predict_no_model].
  destruct get_json as [data | e]; [| left; reflexivity].
  destruct data as [| b | z | f | s | l | kvs].
  1-6: match goal with
       | |- context [predict _ (Return ?d)] =>
           destruct (predict_not_object (Some m) d ltac:(discriminate)) as [E | [msg E]];
           rewrite E; left; reflexivity
       end.
  destruct (lookup "features" kvs) as [features |] eqn:Hk;
    [| left; rewrite predict_object, Hk; reflexivity].
  destruct (len features) as [n | e] eqn:Hl;
    [| left; rewrite predict_object, Hk, Hl; reflexivity].
  destruct (Nat.eqb_spec n 60) as [-> | Hn].
  2: { left. rewrite predict_object, Hk, Hl.
       destruct (Nat.eqb_spec n 60); [contradiction | reflexivity]. }
  destruct (asarray_float features) as [a | e] eqn:Ha;
    [| left; rewrite predict_object, Hk, Hl, Ha; reflexivity].
  right. exists (reshape_1_m1 a).
  assert (Hv : validated (Return (PyDict kvs)) (reshape_1_m1 a)).
  { exists kvs, features, a. repeat split; assumption. }
  split; [exact Hv |].
  rewrite (predict_validated m _ _ Hv), inference_cases.
  destruct (clf_predict m (reshape_1_m1 a)); [| left; reflexivity].
  destruct (clf_predict_proba m (reshape_1_m1 a)); right; reflexivity.
Qed.

(** X8: of a JSON object body [predict] reads the [features] entry and
    nothing else: the answer is MissingInput when the key is unbound, and
    otherwise the answer to the body that holds that entry alone. *)
Theorem predict_reads_features_only model kvs :
  predict model (Return (PyDict kvs)) =
  match lookup "features" kvs with
  | None => ([], MissingInput)
  | Some v => predict model (Return (with_features v))
  end.
Proof.
  rewrite predict_object.
  destruct (lookup "features" kvs) as [v |]; [| reflexivity].
  unfold with_features. rewrite predict_object.
  cbn [lookup]. replace (String.eqb "features" "features") with true by reflexivity.
  reflexivity.
Qed.

(** X9: the length check applies to every sized [features] value, not
    only to lists: a string is measured in characters and an object in
    keys, and a length other than 60 gives InvalidLength naming it. *)
Theorem predict_sized_wrong_length model kvs v n :
  lookup "features" kvs = Some v ->
  len v = Return n ->
  n <> 60%nat ->
  predict model (Return (PyDict kvs)) = ([], InvalidLength n)
  /\ status (InvalidLength n) = 400.
Proof.
  intros Hk Hl Hn. split; [| reflexivity].
  rewrite predict_object, Hk, Hl.
  destruct (Nat.eqb_spec n 60); [contradiction | reflexivity].
Qed.

Lemma predict_sized_wrong_length_witness :
  predict None (Return (with_features (PyStr "abc"))) = ([], InvalidLength 3)
  /\ status (InvalidLength 3) = 400.
Proof.
  apply (predict_sized_wrong_length None [("features", PyStr "abc")] (PyStr "abc") 3).
  - reflexivity.
  - reflexivity.
  - lia.
Defined.

(** X10: a decoded body that is no JSON object (null, a boolean, a
    number, a string or an array) never reaches the length check or the
    classifier: the answer is MissingInput or PredictionFailed. *)
Theorem predict_body_not_object model data :
  (forall kvs, data <> PyDict kvs) ->
  fst (predict model (Return data)) = []
  /\ (snd (predict model (Return data)) = MissingInput
      \/ exists msg, snd (predict model (Return data)) = PredictionFailed msg).
Proof.
  intros Hd.
  destruct (predict_not_object model data Hd) as [H | [msg H]]; rewrite H.
  - split; [reflexivity | left; reflexivity].
  - split; [reflexivity | right; exists msg; reflexivity].
Qed.

Lemma predict_body_not_object_witness :
  fst (predict None (Return (PyList [PyStr "features"]))) = []
  /\ (snd (predict None (Return (PyList [PyStr "features"]))) = MissingInput
      \/ exists msg,
           snd (predict None (Return (PyList [PyStr "features"])))
           = PredictionFailed msg).
Proof.
  apply (predict_body_not_object None (PyList [PyStr "features"])).
  intros kvs. discriminate.
Defined.

Example array_body_holding_the_key :
  predict None (Return (PyList [PyStr "features"])) =
  ([], PredictionFailed "list indices must be integers or slices, not str").
Proof. reflexivity. Qed.

Example truthy_number_body :
  predict None (Return (PyInt 5)) =
  ([], PredictionFailed "argument of type 'int' is not iterable").
Proof. reflexivity. Qed.

Lemma convert_all_length l d :
  convert_all l = Return d -> List.length d = List.length l.
Proof.
  revert d. induction l as [| x rest IH]; intros d H.
  - inversion H. reflexivity.
  - cbn [convert_all] in H.
    destruct (setitem x) as [y | e]; [| discriminate H]. cbn [obind] in H.
    destruct (convert_all rest) as [ys | e]; [| discriminate H]. cbn [obind] in H.
    inversion H. cbn [List.length]. rewrite (IH ys eq_refl). reflexivity.
Qed.

(** X11: for a flat [features] list of 60 scalars that all convert, the
    classifier is called first with [predict], on one row of exactly 60
    values: the converted elements in their order. *)
Theorem predict_hands_over_row m kvs l d :
  lookup "features" kvs = Some (PyList l) ->
  List.length l = 60%nat ->
  Forall is_scalar l ->
  convert_all l = Return d ->
  List.length d = 60%nat
  /\ exists rest,
       fst (predict (Some m) (Return (PyDict kvs))) =
       CallPredict (mk_ndarray [1%nat; 60%nat] d) :: rest.
Proof.
  intros Hk Hn Hs Hc.
  assert (Hd : List.length d = 60%nat) by (rewrite (convert_all_length l d Hc); exact Hn).
  split; [exact Hd |].
  rewrite predict_object, Hk. cbn [len]. rewrite Hn. cbn [Nat.eqb negb].
  rewrite (asarray_flat l Hs), Hc. cbn [obind].
  rewrite inference_cases. unfold reshape_1_m1. cbn [data]. rewrite Hd.
  destruct (clf_predict m _); [| eexists; reflexivity].
  destruct (clf_predict_proba m _); eexists; reflexivity.
Qed.

Lemma predict_hands_over_row_witness :
  List.length (map Fin rock_sample) = 60%nat
  /\ exists rest,
       fst (predict (Some demo_classifier)
              (Return (PyDict [("features", float_list rock_sample)]))) =
       CallPredict (mk_ndarray [1%nat; 60%nat] (map Fin rock_sample)) :: rest.
Proof.
  apply (predict_hands_over_row demo_classifier
           [("features", float_list rock_sample)]
           (map (fun q => PyFloat (Fin q)) rock_sample) (map Fin rock_sample)).
  - reflexivity.
  - reflexivity.
  - apply Forall_forall. intros v Hv. apply in_map_iff in Hv.
    destruct Hv as [q [Hq _]]. subst v. exact I.
  - reflexivity.
Defined.

(** X12: the vector that [get_sample] returns for an accepted kind passes
    the validation of [predict]: with no model the answer is
    ModelUnavailable, and with a model the classifier is called on a row
    of 60 values. *)
Theorem sample_passes_validation kind v :
  field "features" (get_sample kind) = Some v ->
  predict None (Return (with_features v)) = ([], ModelUnavailable)
  /\ forall m, exists x rest,
       fst (predict (Some m) (Return (with_features v))) = CallPredict x :: rest
       /\ shape x = [1%nat; 60%nat].
Proof.
  unfold get_sample.
  destruct (String.eqb (lower kind) "rock");
    [| destruct (String.eqb (lower kind) "mine"); [| discriminate]];
    intros H; injection H as <-.
  - split; [reflexivity |]. intros m.
    assert (Hv : validated (Return (with_features (float_list rock_sample)))
                   (reshape_1_m1 rock_array))
      by exact rock_request_validated.
    rewrite (predict_validated m _ _ Hv), inference_cases.
    exists (reshape_1_m1 rock_array).
    destruct (clf_predict m _); [| eexists; split; reflexivity].
    destruct (clf_predict_proba m _); eexists; split; reflexivity.
  - split; [reflexivity |]. intros m.
    assert (Hv : validated (Return (with_features (float_list mine_sample)))
                   (reshape_1_m1 (mk_ndarray [60%nat] (map Fin mine_sample)))).
    { exists [("features", float_list mine_sample)], (float_list mine_sample),
        (mk_ndarray [60%nat] (map Fin mine_sample)).
      repeat split; reflexivity. }
    rewrite (predict_validated m _ _ Hv), inference_cases.
    exists (reshape_1_m1 (mk_ndarray [60%nat] (map Fin mine_sample))).
    destruct (clf_predict m _); [| eexists; split; reflexivity].
    destruct (clf_predict_proba m _); eexists; split; reflexivity.
Qed.

Lemma sample_passes_validation_witness :
  predict None (Return (with_features (float_list mine_sample))) = ([], ModelUnavailable)
  /\ forall m, exists x rest,
       fst (predict (Some m) (Return (with_features (float_list mine_sample))))
       = CallPredict x :: rest
       /\ shape x = [1%nat; 60%nat].
Proof.
  apply (sample_passes_validation "MINE" (float_list mine_sample)). reflexivity.
Defined.

Lemma two_decimals_range x :
  (0 <= x)%Q -> (x <= 100)%Q ->
  (0 <= two_decimals x)%Q /\ (two_decimals x <= 100)%Q.
Proof.
  intros H0 H1. unfold two_decimals.
  pose proof (round_half_even_near (x * 100)) as R.
  apply Qabs_Qle_condition in R.
  set (k := round_half_even (x * 100)) in *.
  assert (Hlo : 0 <= k).
  { assert (H : (inject_Z (-1) < inject_Z k)%Q).
    { change (inject_Z (-1)) with (-1)%Q. lra. }
    rewrite <- Zlt_Qlt in H. lia. }
  assert (Hup : k <= 10000).
  { assert (H : (inject_Z k < inject_Z 10001)%Q).
    { change (inject_Z 10001) with 10001%Q. lra. }
    rewrite <- Zlt_Qlt in H. lia. }
  rewrite Zle_Qle in Hlo, Hup.
  change (inject_Z 0) with 0%Q in Hlo. change (inject_Z 10000) with 10000%Q in Hup.
  unfold Qdiv. change (/ 100)%Q with (1 # 100)%Q.
  split; lra.
Qed.

(** X13: when the two probabilities read from the classifier lie between
    0 and 1, both confidence values of the response lie between 0 and
    100. *)
Theorem predict_confidence_range m get_json x c cs q0 q1 ps rows :
  validated get_json x ->
  clf_predict m x = Return (c :: cs) ->
  clf_predict_proba m x = Return ((Fin q0 :: Fin q1 :: ps) :: rows) ->
  (0 <= q0)%Q -> (q0 <= 1)%Q -> (0 <= q1)%Q -> (q1 <= 1)%Q ->
  exists rock mine : Q,
    field "confidence" (snd (predict (Some m) get_json)) =
      Some (PyDict [("rock", PyFloat (Fin rock)); ("mine", PyFloat (Fin mine))])
    /\ (0 <= rock)%Q /\ (rock <= 100)%Q
    /\ (0 <= mine)%Q /\ (mine <= 100)%Q.
Proof.
  intros Hv Hp Hpp H0 H0' H1 H1'.
  destruct (mul100_near q0 H0 H0') as [x0 [E0 [_ [L0 U0]]]].
  destruct (mul100_near q1 H1 H1') as [x1 [E1 [_ [L1 U1]]]].
  exists (two_decimals x1), (two_decimals x0).
  rewrite (predict_validated m get_json x Hv), inference_cases, Hp, Hpp.
  cbn [index nth_error obind snd]. unfold prediction_response.
  rewrite E0, E1.
  split; [reflexivity |].
  destruct (two_decimals_range x1 L1 U1) as [A B].
  destruct (two_decimals_range x0 L0 U0) as [C D].
  repeat split; assumption.
Qed.

Lemma predict_confidence_range_witness :
  exists rock mine : Q,
    field "confidence" (snd (predict (Some demo_classifier) rock_request)) =
      Some (PyDict [("rock", PyFloat (Fin rock)); ("mine", PyFloat (Fin mine))])
    /\ (0 <= rock)%Q /\ (rock <= 100)%Q
    /\ (0 <= mine)%Q /\ (mine <= 100)%Q.
Proof.
  apply (predict_confidence_range demo_classifier rock_request
           (reshape_1_m1 rock_array) (LStr "M") [] 0.12345%Q 0.87655%Q [] []);
    try reflexivity; try exact rock_request_validated;
    unfold Qle; cbn; lia.
Defined.

Lemma serve_all_responses model rs :
  snd (serve_all model rs) = map (fun r => snd (serve model r)) rs.
Proof.
  revert model. induction rs as [| r rest IH]; intros model; [reflexivity |].
  cbn [serve_all map].
  destruct (serve model r) as [model' resp] eqn:Hs.
  assert (Hm : model' = model) by (destruct r; cbn in Hs; congruence).
  subst model'. specialize (IH model).
  destruct (serve_all model rest) as [model'' resps]. cbn [snd] in IH |- *.
  rewrite IH. reflexivity.
Qed.

(** X15: when loading the model raised at startup, the answer to every
    prediction request of the process, at any position of any sequence of
    requests, is the one [predict] gives with no model: never status 200. *)
Theorem failed_load_never_predicts e rs i get_json :
  nth_error rs i = Some (POST_predict get_json) ->
  exists resp,
    nth_error (snd (serve_all (load_model (Raise e)) rs)) i = Some resp
    /\ resp = snd (predict None get_json)
    /\ status resp <> 200.
Proof.
  intros H. exists (snd (predict None get_json)).
  rewrite serve_all_responses, nth_error_map, H. cbn [option_map load_model serve snd].
  split; [reflexivity |]. split; [reflexivity |].
  destruct (predict_no_model get_json) as [_ [Hs | Hs]]; rewrite Hs; discriminate.
Qed.

Lemma failed_load_never_predicts_witness :
  exists resp,
    nth_error
      (snd (serve_all (load_model (Raise (mk_exn (Other "FileNotFoundError") "")))
              [GET_health; POST_predict rock_request])) 1
    = Some resp
    /\ resp = snd (predict None rock_request)
    /\ status resp <> 200.
Proof.
  apply (failed_load_never_predicts (mk_exn (Other "FileNotFoundError") "")
           [GET_health; POST_predict rock_request] 1 rock_request).
  reflexivity.
Defined.

Lemma inference_not_unavailable m x : snd (inference m x) <> ModelUnavailable.
Proof.
  intros E. rewrite inference_cases in E.
  destruct (clf_predict m x) as [prediction | e].
  - destruct (clf_predict_proba m x) as [proba | e].
    + cbn [snd] in E.
      destruct (index proba 0) as [row | e]; cbn [obind] in E;
        [| unfold predict_except in E; destruct (is_ValueError _); discriminate E].
      destruct (index row 1) as [p1 | e]; cbn [obind] in E;
        [| unfold predict_except in E; destruct (is_ValueError _); discriminate E].
      destruct (index row 0) as [p0 | e]; cbn [obind] in E;
        [| unfold predict_except in E; destruct (is_ValueError _); discriminate E].
      destruct (index prediction 0) as [c | e]; cbn [obind] in E;
        [| unfold predict_except in E; destruct (is_ValueError _); discriminate E].
      discriminate E.
    + cbn [snd] in E. unfold predict_except in E.
      destruct (is_ValueError _); discriminate E.
  - cbn [snd] in E. unfold predict_except in E.
    destruct (is_ValueError _); discriminate E.
Qed.

(** X16: [health_check] and [predict] agree on the model: for a body of
    60 finite numbers, model_loaded is false exactly when [predict]
    answers ModelUnavailable. *)
Theorem health_check_agrees_with_predict model kvs l :
  lookup "features" kvs = Some (PyList l) ->
  List.length l = 60%nat ->
  Forall finite_number l ->
  field "model_loaded" (health_check model) = Some (PyBool false)
  <-> snd (predict model (Return (PyDict kvs))) = ModelUnavailable.
Proof.
  intros Hk Hn Hs.
  destruct model as [m |].
  - split; [discriminate |].
    intros H. exfalso. revert H.
    rewrite predict_object, Hk. cbn [len]. rewrite Hn. cbn [Nat.eqb negb].
    rewrite asarray_flat
      by (eapply Forall_impl; [| exact Hs];
          intros v Hv; apply json_scalar_is_scalar, finite_number_json_scalar, Hv).
    destruct (convert_all_numbers l Hs) as [d Hd]. rewrite Hd. cbn [obind].
    apply inference_not_unavailable.
  - split; [| reflexivity]. intros _.
    rewrite (predict_numbers_no_model kvs l Hk Hn Hs). reflexivity.
Qed.

Lemma health_check_agrees_with_predict_witness :
  field "model_loaded" (health_check None) = Some (PyBool false)
  <-> snd (predict None (Return (PyDict [("features", float_list rock_sample)])))
      = ModelUnavailable.
Proof.
  apply (health_check_agrees_with_predict None
           [("features", float_list rock_sample)]
           (map (fun q => PyFloat (Fin q)) rock_sample)).
  - reflexivity.
  - reflexivity.
  - apply Forall_forall. intros v Hv. apply in_map_iff in Hv.
    destruct Hv as [q [Hq _]]. subst v. exact I.
Defined.

Lemma convert_all_floats r :
  convert_all (map (fun q => PyFloat (Fin q)) r) = Return (map Fin r).
Proof.
  induction r as [| q rest IH]; [reflexivity |].
  cbn [map convert_all setitem float_of_object obind]. rewrite IH. reflexivity.
Qed.

Lemma float_list_scalars r : Forall is_scalar (map (fun q => PyFloat (Fin q)) r).
Proof.
  apply Forall_forall. intros v Hv. apply in_map_iff in Hv.
  destruct Hv as [q [Hq _]]. subst v. exact I.
Qed.

Lemma discover_shape_float_list r :
  discover_shape (float_list r) = Some [List.length r].
Proof.
  unfold float_list. rewrite (discover_shape_flat _ (float_list_scalars r)).
  rewrite length_map. reflexivity.
Qed.

Lemma fill_float_list r : fill (float_list r) = Return (map Fin r).
Proof.
  unfold float_list. rewrite (fill_flat _ (float_list_scalars r)).
  apply convert_all_floats.
Qed.

Lemma fill_rows rows :
  fill (PyList (map float_list rows)) = Return (map Fin (List.concat rows)).
Proof.
  cbn [fill]. induction rows as [| r rest IH]; [reflexivity |].
  cbn [map List.concat]. rewrite fill_float_list. cbn [obind].
  rewrite IH. cbn [obind]. rewrite map_app. reflexivity.
Qed.

Lemma discover_shape_rows rows k :
  rows <> [] ->
  Forall (fun r => List.length r = k) rows ->
  discover_shape (PyList (map float_list rows)) = Some [List.length rows; k].
Proof.
  intros Hne H. destruct H as [| r rest Hr Hrest]; [contradiction Hne; reflexivity |].
  cbn [map discover_shape]. fold (float_list r).
  rewrite discover_shape_float_list, Hr.
  replace (forallb _ (map float_list rest)) with true.
  - cbn [List.length]. rewrite length_map. reflexivity.
  - symmetry. apply forallb_forall. intros y Hy. apply in_map_iff in Hy.
    destruct Hy as [r' [<- Hin]]. rewrite discover_shape_float_list.
    rewrite Forall_forall in Hrest. rewrite (Hrest r' Hin).
    destruct (list_eq_dec Nat.eq_dec [k] [k]) as [_ | Hneq];
      [reflexivity | contradiction Hneq; reflexivity].
Qed.

Lemma concat_length_uniform (rows : list (list Q)) k :
  Forall (fun r => List.length r = k) rows ->
  List.length (List.concat rows) = (List.length rows * k)%nat.
Proof.
  induction 1 as [| r rest Hr Hrest IH]; [reflexivity |].
  cbn [List.concat List.length]. rewrite length_app, Hr, IH. lia.
Qed.

(** X17: the length check counts the items of [features] only: a list of
    60 rows of [k] numbers each passes it, and the classifier is called on
    one row of 60 * k values. *)
Theorem predict_nested_rows m kvs rows k :
  lookup "features" kvs = Some (PyList (map float_list rows)) ->
  List.length rows = 60%nat ->
  Forall (fun r => List.length r = k) rows ->
  exists rest,
    fst (predict (Some m) (Return (PyDict kvs))) =
    CallPredict (mk_ndarray [1%nat; (60 * k)%nat] (map Fin (List.concat rows))) :: rest.
Proof.
  intros Hk Hn Hr.
  assert (Hne : rows <> []) by (intros ->; discriminate Hn).
  rewrite predict_object, Hk. cbn [len]. rewrite length_map, Hn. cbn [Nat.eqb negb].
  unfold asarray_float.
  rewrite (discover_shape_rows rows k Hne Hr), fill_rows. cbn [obind].
  rewrite inference_cases. unfold reshape_1_m1. cbn [data].
  rewrite length_map, (concat_length_uniform rows k Hr), Hn.
  destruct (clf_predict m _); [| eexists; reflexivity].
  destruct (clf_predict_proba m _); eexists; reflexivity.
Qed.

Lemma predict_nested_rows_witness :
  exists rest,
    fst (predict (Some demo_classifier)
           (Return (PyDict [("features",
                             PyList (map float_list (repeat [0.5%Q; 0.25%Q] 60)))]))) =
    CallPredict (mk_ndarray [1%nat; (60 * 2)%nat]
                   (map Fin (List.concat (repeat [0.5%Q; 0.25%Q] 60)))) :: rest.
Proof.
  apply (predict_nested_rows demo_classifier
           [("features", PyList (map float_list (repeat [0.5%Q; 0.25%Q] 60)))]
           (repeat [0.5%Q; 0.25%Q] 60) 2).
  - reflexivity.
  - reflexivity.
  - apply Forall_forall. intros r Hr. apply repeat_spec in Hr. subst r. reflexivity.
Defined.

Lemma convert_all_scalars l :
  Forall json_scalar l ->
  (exists d, convert_all l = Return d /\ ~ Exists unparsable l)
  \/ (exists e, convert_all l = Raise e /\ exn_cls e = ValueError /\ Exists unparsable l).
Proof.
  induction 1 as [| x rest Hx Hrest IH].
  - left. exists []. split; [reflexivity | intros H; inversion H].
  - cbn [convert_all].
    destruct (setitem_json_scalar x Hx) as [[f Hf] | [Hu [e [He Hc]]]].
    + rewrite Hf. cbn [obind].
      assert (Hnu : ~ unparsable x).
      { intros Hu. destruct (setitem_unparsable x Hu) as [e [He _]]. congruence. }
      destruct IH as [[d [Hd Hn]] | [e [He [Hc Hex]]]].
      * left. exists (f :: d). rewrite Hd. split; [reflexivity |].
        intros H. inversion H; subst; contradiction.
      * right. exists e. rewrite He. split; [reflexivity |].
        split; [exact Hc | apply Exists_cons_tl, Hex].
    + right. exists e. rewrite He. split; [reflexivity |].
      split; [exact Hc | apply Exists_cons_hd, Hu].
Qed.

(** X18: with no model loaded, a [features] list of 60 JSON scalars is
    answered NonNumericInput exactly when one of its strings is rejected
    by [float]; otherwise (null, booleans and numeric strings included)
    it passes validation and is answered ModelUnavailable. *)
Theorem predict_scalars_coerced kvs l :
  lookup "features" kvs = Some (PyList l) ->
  List.length l = 60%nat ->
  Forall json_scalar l ->
  (snd (predict None (Return (PyDict kvs))) = NonNumericInput <-> Exists unparsable l)
  /\ (snd (predict None (Return (PyDict kvs))) = ModelUnavailable
      <-> ~ Exists unparsable l).
Proof.
  intros Hk Hn Hs.
  rewrite predict_object, Hk. cbn [len]. rewrite Hn. cbn [Nat.eqb negb].
  rewrite asarray_flat by (eapply Forall_impl; [apply json_scalar_is_scalar | exact Hs]).
  destruct (convert_all_scalars l Hs) as [[d [Hd Hnu]] | [e [He [Hc Hex]]]].
  - rewrite Hd. cbn [obind snd]. split; split; intros H.
    + discriminate H.
    + contradiction.
    + exact Hnu.
    + reflexivity.
  - rewrite He. cbn [obind snd]. unfold predict_except. rewrite Hc. cbn [is_ValueError].
    split; split; intros H.
    + exact Hex.
    + reflexivity.
    + discriminate H.
    + contradiction.
Qed.

Lemma predict_scalars_coerced_witness :
  (snd (predict None
          (Return (PyDict [("features",
                            PyList (PyNone :: PyBool true :: repeat (PyStr " 1e-3 ") 58))])))
   = NonNumericInput
   <-> Exists unparsable (PyNone :: PyBool true :: repeat (PyStr " 1e-3 ") 58))
  /\ (snd (predict None
             (Return (PyDict [("features",
                               PyList (PyNone :: PyBool true
                                         :: repeat (PyStr " 1e-3 ") 58))])))
      = ModelUnavailable
      <-> ~ Exists unparsable (PyNone :: PyBool true :: repeat (PyStr " 1e-3 ") 58)).
Proof.
  apply (predict_scalars_coerced
           [("features", PyList (PyNone :: PyBool true :: repeat (PyStr " 1e-3 ") 58))]
           (PyNone :: PyBool true :: repeat (PyStr " 1e-3 ") 58)).
  - reflexivity.
  - reflexivity.
  - repeat constructor.
Defined.
